(** * Buffer-driven quality switching: a model of [BufferManager]

    A shallow embedding of the two [BufferManager] classes of
    [src/player.js] (the ABR manager plugged into the Shaka player) and of
    the telemetry helpers they carry, followed by the properties of the
    engine that the specification states.

    Conventions of the embedding.
    - A method is a computation in the monad [M]: it threads the state of
      the manager and of the part of the host it touches, and either
      returns a value or throws.  A JavaScript exception keeps every
      mutation performed before it was raised, so the state is returned in
      both cases.
    - Arrays are objects: [this.videoVariants] holds a reference into the
      store [arrays], shared with whoever passed the array to
      [setVariants].
    - Millisecond quantities ([Date.now()], latencies, delays) and
      bandwidths are integers, on which the binary64 operations of
      JavaScript are exact below 2^53.  A buffer sample is the exact
      value of the double the host returns.  The averages, the quotient
      and the square root of [getLatencyStatistics] and [calculateJitter]
      are computed in binary64, with the kernel's primitive floats.
    - Fields that no method below reads or writes ([mediaElement],
      [cmsdManager], [resizeObserver], [playbackRate_], [failedSegments]
      and the like) and the response filter installed by
      [setupErrorHandling] are left out. *)

From Stdlib Require Import Floats.
From Stdlib Require Import ZArith QArith Qround Qabs List Lia Lqa String.
From Stdlib Require Import Sorting.Sorted Sorting.Permutation.
From stdpp Require Import gmap list sorting.

Local Open Scope Z_scope.

(** ** Values exchanged with the host *)

(** A JavaScript number as returned by [getBufferFullness()]. *)
Inductive Sample : Type :=
| SNaN
| SInf (negative : bool)
| SFin (q : Q).

(** The string produced by [Number.prototype.toFixed(1)], identified with
    the number it denotes when it is compared with a threshold:
    ["NaN"], ["Infinity"] or ["-Infinity"], a decimal with one fractional
    digit ([k] tenths), or, from 10^21 on, the default rendering of the
    number itself. *)
Inductive Level : Type :=
| LNaN
| LInf (negative : bool)
| LTenths (k : Z)
| LExp (q : Q).

Definition Qltb (x y : Q) : bool := negb (Qle_bool y x).

(** The integer nearest to [q], the larger one on a tie. *)
Definition roundHalfUp (q : Q) : Z := Qfloor (q + (1 # 2)).

(** [x.toFixed(1)]: for |x| < 10^21 the integer [n] with [n / 10] closest
    to |x|, the larger one on a tie, with the sign put back in front. *)
Definition toFixed1 (x : Sample) : Level :=
  match x with
  | SNaN => LNaN
  | SInf neg => LInf neg
  | SFin q =>
      if Qle_bool (inject_Z (10 ^ 21)) (Qabs q) then LExp q
      else if Qltb q 0 then LTenths (- roundHalfUp (inject_Z 10 * - q))
      else LTenths (roundHalfUp (inject_Z 10 * q))
  end.

(** [level < t] and [level > t] after the string has been converted back to
    a number; every comparison with NaN is false.  The thresholds 0.3 and
    0.8 are the binary64 values nearest to 3/10 and 8/10, and a one-digit
    decimal converts to the binary64 nearest to it, so comparing the exact
    rationals gives the same answer. *)
Definition level_lt (l : Level) (t : Q) : bool :=
  match l with
  | LNaN => false
  | LInf neg => neg
  | LTenths k => Qltb (k # 10) t
  | LExp q => Qltb q t
  end.

Definition level_gt (l : Level) (t : Q) : bool :=
  match l with
  | LNaN => false
  | LInf neg => negb neg
  | LTenths k => Qltb t (k # 10)
  | LExp q => Qltb t q
  end.

(** ** Data model *)

Record Variant : Type := mkVariant {
  variantId : nat;
  bandwidth : Z
}.

Record Restrictions : Type := mkRestrictions {
  maxBandwidth : option Z          (* [None]: no cap has been written yet *)
}.

Record Config : Type := mkConfig {
  safeMarginSwitch : bool;
  clearBufferSwitch : bool;
  restrictions : option Restrictions;
  restrictToScreenSize : bool
}.

Record SegmentRecord : Type := mkSegment {
  contentType : string;
  timestamp : Z;
  latency : Z;
  delay : Z
}.

(** The [request] argument of [segmentDownloaded], when the caller passes
    one: an object carrying the content type and the start time, and
    possibly the time to the first byte. *)
Record Request : Type := mkRequest {
  reqContentType : string;
  timeToFirstByte : option Z;
  requestStartTime : Z
}.

(** One invocation of the switch callback. *)
Record SwitchCall : Type := mkSwitchCall {
  callee : nat;
  chosen : Variant;
  safeMargin : bool;
  clearBuffer : bool
}.

Record LatencyStatistics : Type := mkStats {
  averageLatency : float;
  maxLatency : Z;
  minLatency : Z
}.

(** References to arrays. *)
Abbreviation loc := positive.

(** The manager object together with the part of the host it acts on. *)
Record State : Type := mkState {
  (* fields of the BufferManager instance *)
  switchQualityCallback : option nat;
  enabled_ : bool;
  isEnabled : option bool;
  videoVariants : loc;
  getBufferFullness : nat -> Sample;     (* answer to the n-th call *)
  downloadedSegments : list SegmentRecord;
  playbackRate : Z;
  lastQualityChangeTime : option Z;
  config_ : option Config;
  highBufferThreshold : Q;
  lowBufferThreshold : Q;
  currentQualityIndex : Z;
  bufferLevel : Level;
  lastDownloadedSegmentsCount : option nat;
  (* the host *)
  arrays : gmap loc (list Variant);      (* the array store *)
  fullnessCalls : nat;                   (* calls of getBufferFullness so far *)
  switchCalls : list SwitchCall;         (* invocations of the switch callback *)
  intervals : list Z;                    (* periods of the live setInterval timers *)
  displayed : list float                 (* values written to #liveLatency *)
}.

Definition set_switchQualityCallback (v : option nat) (s : State) : State :=
  {| switchQualityCallback := v; enabled_ := enabled_ s; isEnabled :=
     isEnabled s; videoVariants := videoVariants s; getBufferFullness :=
     getBufferFullness s; downloadedSegments := downloadedSegments s;
     playbackRate := playbackRate s; lastQualityChangeTime :=
     lastQualityChangeTime s; config_ := config_ s; highBufferThreshold :=
     highBufferThreshold s; lowBufferThreshold := lowBufferThreshold s;
     currentQualityIndex := currentQualityIndex s; bufferLevel := bufferLevel s;
     lastDownloadedSegmentsCount := lastDownloadedSegmentsCount s; arrays :=
     arrays s; fullnessCalls := fullnessCalls s; switchCalls := switchCalls s;
     intervals := intervals s; displayed := displayed s |}.

Definition set_enabled_ (v : bool) (s : State) : State :=
  {| switchQualityCallback := switchQualityCallback s; enabled_ := v;
     isEnabled := isEnabled s; videoVariants := videoVariants s;
     getBufferFullness := getBufferFullness s; downloadedSegments :=
     downloadedSegments s; playbackRate := playbackRate s; lastQualityChangeTime
     := lastQualityChangeTime s; config_ := config_ s; highBufferThreshold :=
     highBufferThreshold s; lowBufferThreshold := lowBufferThreshold s;
     currentQualityIndex := currentQualityIndex s; bufferLevel := bufferLevel s;
     lastDownloadedSegmentsCount := lastDownloadedSegmentsCount s; arrays :=
     arrays s; fullnessCalls := fullnessCalls s; switchCalls := switchCalls s;
     intervals := intervals s; displayed := displayed s |}.

Definition set_isEnabled (v : option bool) (s : State) : State :=
  {| switchQualityCallback := switchQualityCallback s; enabled_ := enabled_ s;
     isEnabled := v; videoVariants := videoVariants s; getBufferFullness :=
     getBufferFullness s; downloadedSegments := downloadedSegments s;
     playbackRate := playbackRate s; lastQualityChangeTime :=
     lastQualityChangeTime s; config_ := config_ s; highBufferThreshold :=
     highBufferThreshold s; lowBufferThreshold := lowBufferThreshold s;
     currentQualityIndex := currentQualityIndex s; bufferLevel := bufferLevel s;
     lastDownloadedSegmentsCount := lastDownloadedSegmentsCount s; arrays :=
     arrays s; fullnessCalls := fullnessCalls s; switchCalls := switchCalls s;
     intervals := intervals s; displayed := displayed s |}.

Definition set_videoVariants (v : loc) (s : State) : State :=
  {| switchQualityCallback := switchQualityCallback s; enabled_ := enabled_ s;
     isEnabled := isEnabled s; videoVariants := v; getBufferFullness :=
     getBufferFullness s; downloadedSegments := downloadedSegments s;
     playbackRate := playbackRate s; lastQualityChangeTime :=
     lastQualityChangeTime s; config_ := config_ s; highBufferThreshold :=
     highBufferThreshold s; lowBufferThreshold := lowBufferThreshold s;
     currentQualityIndex := currentQualityIndex s; bufferLevel := bufferLevel s;
     lastDownloadedSegmentsCount := lastDownloadedSegmentsCount s; arrays :=
     arrays s; fullnessCalls := fullnessCalls s; switchCalls := switchCalls s;
     intervals := intervals s; displayed := displayed s |}.

Definition set_downloadedSegments (v : list SegmentRecord) (s : State) : State :=
  {| switchQualityCallback := switchQualityCallback s; enabled_ := enabled_ s;
     isEnabled := isEnabled s; videoVariants := videoVariants s;
     getBufferFullness := getBufferFullness s; downloadedSegments := v;
     playbackRate := playbackRate s; lastQualityChangeTime :=
     lastQualityChangeTime s; config_ := config_ s; highBufferThreshold :=
     highBufferThreshold s; lowBufferThreshold := lowBufferThreshold s;
     currentQualityIndex := currentQualityIndex s; bufferLevel := bufferLevel s;
     lastDownloadedSegmentsCount := lastDownloadedSegmentsCount s; arrays :=
     arrays s; fullnessCalls := fullnessCalls s; switchCalls := switchCalls s;
     intervals := intervals s; displayed := displayed s |}.

Definition set_playbackRate (v : Z) (s : State) : State :=
  {| switchQualityCallback := switchQualityCallback s; enabled_ := enabled_ s;
     isEnabled := isEnabled s; videoVariants := videoVariants s;
     getBufferFullness := getBufferFullness s; downloadedSegments :=
     downloadedSegments s; playbackRate := v; lastQualityChangeTime :=
     lastQualityChangeTime s; config_ := config_ s; highBufferThreshold :=
     highBufferThreshold s; lowBufferThreshold := lowBufferThreshold s;
     currentQualityIndex := currentQualityIndex s; bufferLevel := bufferLevel s;
     lastDownloadedSegmentsCount := lastDownloadedSegmentsCount s; arrays :=
     arrays s; fullnessCalls := fullnessCalls s; switchCalls := switchCalls s;
     intervals := intervals s; displayed := displayed s |}.

Definition set_lastQualityChangeTime (v : option Z) (s : State) : State :=
  {| switchQualityCallback := switchQualityCallback s; enabled_ := enabled_ s;
     isEnabled := isEnabled s; videoVariants := videoVariants s;
     getBufferFullness := getBufferFullness s; downloadedSegments :=
     downloadedSegments s; playbackRate := playbackRate s; lastQualityChangeTime
     := v; config_ := config_ s; highBufferThreshold := highBufferThreshold s;
     lowBufferThreshold := lowBufferThreshold s; currentQualityIndex :=
     currentQualityIndex s; bufferLevel := bufferLevel s;
     lastDownloadedSegmentsCount := lastDownloadedSegmentsCount s; arrays :=
     arrays s; fullnessCalls := fullnessCalls s; switchCalls := switchCalls s;
     intervals := intervals s; displayed := displayed s |}.

Definition set_config_ (v : option Config) (s : State) : State :=
  {| switchQualityCallback := switchQualityCallback s; enabled_ := enabled_ s;
     isEnabled := isEnabled s; videoVariants := videoVariants s;
     getBufferFullness := getBufferFullness s; downloadedSegments :=
     downloadedSegments s; playbackRate := playbackRate s; lastQualityChangeTime
     := lastQualityChangeTime s; config_ := v; highBufferThreshold :=
     highBufferThreshold s; lowBufferThreshold := lowBufferThreshold s;
     currentQualityIndex := currentQualityIndex s; bufferLevel := bufferLevel s;
     lastDownloadedSegmentsCount := lastDownloadedSegmentsCount s; arrays :=
     arrays s; fullnessCalls := fullnessCalls s; switchCalls := switchCalls s;
     intervals := intervals s; displayed := displayed s |}.

Definition set_currentQualityIndex (v : Z) (s : State) : State :=
  {| switchQualityCallback := switchQualityCallback s; enabled_ := enabled_ s;
     isEnabled := isEnabled s; videoVariants := videoVariants s;
     getBufferFullness := getBufferFullness s; downloadedSegments :=
     downloadedSegments s; playbackRate := playbackRate s; lastQualityChangeTime
     := lastQualityChangeTime s; config_ := config_ s; highBufferThreshold :=
     highBufferThreshold s; lowBufferThreshold := lowBufferThreshold s;
     currentQualityIndex := v; bufferLevel := bufferLevel s;
     lastDownloadedSegmentsCount := lastDownloadedSegmentsCount s; arrays :=
     arrays s; fullnessCalls := fullnessCalls s; switchCalls := switchCalls s;
     intervals := intervals s; displayed := displayed s |}.

Definition set_bufferLevel (v : Level) (s : State) : State :=
  {| switchQualityCallback := switchQualityCallback s; enabled_ := enabled_ s;
     isEnabled := isEnabled s; videoVariants := videoVariants s;
     getBufferFullness := getBufferFullness s; downloadedSegments :=
     downloadedSegments s; playbackRate := playbackRate s; lastQualityChangeTime
     := lastQualityChangeTime s; config_ := config_ s; highBufferThreshold :=
     highBufferThreshold s; lowBufferThreshold := lowBufferThreshold s;
     currentQualityIndex := currentQualityIndex s; bufferLevel := v;
     lastDownloadedSegmentsCount := lastDownloadedSegmentsCount s; arrays :=
     arrays s; fullnessCalls := fullnessCalls s; switchCalls := switchCalls s;
     intervals := intervals s; displayed := displayed s |}.

Definition set_lastDownloadedSegmentsCount (v : option nat) (s : State) : State :=
  {| switchQualityCallback := switchQualityCallback s; enabled_ := enabled_ s;
     isEnabled := isEnabled s; videoVariants := videoVariants s;
     getBufferFullness := getBufferFullness s; downloadedSegments :=
     downloadedSegments s; playbackRate := playbackRate s; lastQualityChangeTime
     := lastQualityChangeTime s; config_ := config_ s; highBufferThreshold :=
     highBufferThreshold s; lowBufferThreshold := lowBufferThreshold s;
     currentQualityIndex := currentQualityIndex s; bufferLevel := bufferLevel s;
     lastDownloadedSegmentsCount := v; arrays := arrays s; fullnessCalls :=
     fullnessCalls s; switchCalls := switchCalls s; intervals := intervals s;
     displayed := displayed s |}.

Definition set_arrays (v : gmap loc (list Variant)) (s : State) : State :=
  {| switchQualityCallback := switchQualityCallback s; enabled_ := enabled_ s;
     isEnabled := isEnabled s; videoVariants := videoVariants s;
     getBufferFullness := getBufferFullness s; downloadedSegments :=
     downloadedSegments s; playbackRate := playbackRate s; lastQualityChangeTime
     := lastQualityChangeTime s; config_ := config_ s; highBufferThreshold :=
     highBufferThreshold s; lowBufferThreshold := lowBufferThreshold s;
     currentQualityIndex := currentQualityIndex s; bufferLevel := bufferLevel s;
     lastDownloadedSegmentsCount := lastDownloadedSegmentsCount s; arrays := v;
     fullnessCalls := fullnessCalls s; switchCalls := switchCalls s; intervals :=
     intervals s; displayed := displayed s |}.

Definition set_fullnessCalls (v : nat) (s : State) : State :=
  {| switchQualityCallback := switchQualityCallback s; enabled_ := enabled_ s;
     isEnabled := isEnabled s; videoVariants := videoVariants s;
     getBufferFullness := getBufferFullness s; downloadedSegments :=
     downloadedSegments s; playbackRate := playbackRate s; lastQualityChangeTime
     := lastQualityChangeTime s; config_ := config_ s; highBufferThreshold :=
     highBufferThreshold s; lowBufferThreshold := lowBufferThreshold s;
     currentQualityIndex := currentQualityIndex s; bufferLevel := bufferLevel s;
     lastDownloadedSegmentsCount := lastDownloadedSegmentsCount s; arrays :=
     arrays s; fullnessCalls := v; switchCalls := switchCalls s; intervals :=
     intervals s; displayed := displayed s |}.

Definition set_switchCalls (v : list SwitchCall) (s : State) : State :=
  {| switchQualityCallback := switchQualityCallback s; enabled_ := enabled_ s;
     isEnabled := isEnabled s; videoVariants := videoVariants s;
     getBufferFullness := getBufferFullness s; downloadedSegments :=
     downloadedSegments s; playbackRate := playbackRate s; lastQualityChangeTime
     := lastQualityChangeTime s; config_ := config_ s; highBufferThreshold :=
     highBufferThreshold s; lowBufferThreshold := lowBufferThreshold s;
     currentQualityIndex := currentQualityIndex s; bufferLevel := bufferLevel s;
     lastDownloadedSegmentsCount := lastDownloadedSegmentsCount s; arrays :=
     arrays s; fullnessCalls := fullnessCalls s; switchCalls := v; intervals :=
     intervals s; displayed := displayed s |}.

Definition set_intervals (v : list Z) (s : State) : State :=
  {| switchQualityCallback := switchQualityCallback s; enabled_ := enabled_ s;
     isEnabled := isEnabled s; videoVariants := videoVariants s;
     getBufferFullness := getBufferFullness s; downloadedSegments :=
     downloadedSegments s; playbackRate := playbackRate s; lastQualityChangeTime
     := lastQualityChangeTime s; config_ := config_ s; highBufferThreshold :=
     highBufferThreshold s; lowBufferThreshold := lowBufferThreshold s;
     currentQualityIndex := currentQualityIndex s; bufferLevel := bufferLevel s;
     lastDownloadedSegmentsCount := lastDownloadedSegmentsCount s; arrays :=
     arrays s; fullnessCalls := fullnessCalls s; switchCalls := switchCalls s;
     intervals := v; displayed := displayed s |}.

Definition set_displayed (v : list float) (s : State) : State :=
  {| switchQualityCallback := switchQualityCallback s; enabled_ := enabled_ s;
     isEnabled := isEnabled s; videoVariants := videoVariants s;
     getBufferFullness := getBufferFullness s; downloadedSegments :=
     downloadedSegments s; playbackRate := playbackRate s; lastQualityChangeTime
     := lastQualityChangeTime s; config_ := config_ s; highBufferThreshold :=
     highBufferThreshold s; lowBufferThreshold := lowBufferThreshold s;
     currentQualityIndex := currentQualityIndex s; bufferLevel := bufferLevel s;
     lastDownloadedSegmentsCount := lastDownloadedSegmentsCount s; arrays :=
     arrays s; fullnessCalls := fullnessCalls s; switchCalls := switchCalls s;
     intervals := intervals s; displayed := v |}.

(** ** Computations that may throw *)

Inductive JsError : Type := TypeError.

Inductive Outcome (A : Type) : Type :=
| Returns (a : A)
| Throws (e : JsError).
Arguments Returns {A} a.
Arguments Throws {A} e.

Definition M (A : Type) : Type := State -> Outcome A * State.

Definition ret {A} (a : A) : M A := fun s => (Returns a, s).
Definition throw {A} (e : JsError) : M A := fun s => (Throws e, s).
Definition bind {A B} (m : M A) (k : A -> M B) : M B :=
  fun s =>
    match m s with
    | (Returns a, s') => k a s'
    | (Throws e, s') => (Throws e, s')
    end.
Definition gets {A} (f : State -> A) : M A := fun s => (Returns (f s), s).
Definition modify (f : State -> State) : M unit := fun s => (Returns tt, f s).

(** The state a computation leaves behind, whether it returned or threw. *)
Definition exec {A} (m : M A) (s : State) : State := snd (m s).
Definition outcome {A} (m : M A) (s : State) : Outcome A := fst (m s).

Declare Scope js_scope.
Delimit Scope js_scope with js.
Notation "x <- m ;; k" := (bind m (fun x => k))
  (at level 100, m at next level, right associativity) : js_scope.
Notation "m ;; k" := (bind m (fun _ => k))
  (at level 100, right associativity) : js_scope.
Local Open Scope js_scope.

(** ** Arrays *)

(** [arr[i]] for an integer [i]: [undefined] out of range. *)
Definition Array_get {A} (arr : list A) (i : Z) : option A :=
  if i <? 0 then None else arr !! Z.to_nat i.

(** [Array.prototype.sort(cmp)]: a stable sort.  [cmp a b <= 0] keeps [a]
    in front of [b]. *)
Fixpoint Array_insert {A} (cmp : A -> A -> Z) (a : A) (arr : list A) : list A :=
  match arr with
  | [] => [a]
  | b :: rest =>
      if cmp a b <=? 0 then a :: arr else b :: Array_insert cmp a rest
  end.

Definition Array_sort {A} (cmp : A -> A -> Z) (arr : list A) : list A :=
  foldr (Array_insert cmp) [] arr.

(** The comparator [(a, b) => a.bandwidth - b.bandwidth]. *)
Definition byBandwidth (a b : Variant) : Z := bandwidth a - bandwidth b.

(** The array [this.videoVariants] refers to. *)
Definition catalog (s : State) : list Variant :=
  default [] (arrays s !! videoVariants s).

Definition catalogSize (s : State) : Z := Z.of_nat (length (catalog s)).

(** ** The first [BufferManager] (the one [initPlayer] instantiates) *)

(** *** Quality switching *)

(** [getVariantByQualityIndex]: sorts the catalog array where it lives and
    reads the requested rank. *)
Definition getVariantByQualityIndex (qualityIndex : Z) : M (option Variant) :=
  fun s =>
    let sortedVariants := Array_sort byBandwidth (catalog s) in
    (Returns (Array_get sortedVariants qualityIndex),
     set_arrays (<[videoVariants s := sortedVariants]> (arrays s)) s).

(** [restrictions(bandwidth)]:
    [this.config_.restrictions.maxBandwidth = bandwidth]. *)
Definition restrictions_ (bw : Z) : M unit :=
  fun s =>
    match config_ s with
    | None => (Throws TypeError, s)
    | Some c =>
        match restrictions c with
        | None => (Throws TypeError, s)
        | Some _ =>
            (Returns tt,
             set_config_
               (Some (mkConfig (safeMarginSwitch c) (clearBufferSwitch c)
                        (Some (mkRestrictions (Some bw)))
                        (restrictToScreenSize c))) s)
        end
    end.

(** [.bandwidth] of what [getVariantByQualityIndex] returned. *)
Definition bandwidthOf (v : option Variant) : M Z :=
  match v with
  | Some v => ret (bandwidth v)
  | None => throw TypeError
  end.

Definition decreaseQuality : M unit :=
  idx <- gets currentQualityIndex ;;
  if 0 <? idx then
    modify (set_currentQualityIndex (idx - 1)) ;;
    v <- getVariantByQualityIndex (idx - 1) ;;
    bw <- bandwidthOf v ;;
    restrictions_ bw
  else ret tt.

Definition increaseQuality : M unit :=
  maxQualityIndex <- gets (fun s => catalogSize s - 1) ;;
  idx <- gets currentQualityIndex ;;
  if idx <? maxQualityIndex then
    modify (set_currentQualityIndex (idx + 1)) ;;
    v <- getVariantByQualityIndex (idx + 1) ;;
    bw <- bandwidthOf v ;;
    restrictions_ bw
  else ret tt.

Definition chooseVariant : M (option Variant) :=
  lvl <- gets bufferLevel ;;
  low <- gets lowBufferThreshold ;;
  high <- gets highBufferThreshold ;;
  (if level_lt lvl low then decreaseQuality
   else if level_gt lvl high then increaseQuality
   else ret tt) ;;
  idx <- gets currentQualityIndex ;;
  getVariantByQualityIndex idx.

(** [this.switchQualityCallback(variant, this.config_.safeMarginSwitch,
    this.config_.clearBufferSwitch)]. *)
Definition invokeSwitch (v : Variant) : M unit :=
  fun s =>
    match switchQualityCallback s, config_ s with
    | Some f, Some c =>
        (Returns tt,
         set_switchCalls
           (switchCalls s ++
              [mkSwitchCall f v (safeMarginSwitch c) (clearBufferSwitch c)]) s)
    | _, _ => (Throws TypeError, s)
    end.

(** One call of the host's buffer-fullness callback, which answers with a
    number. *)
Definition readBufferFullness : M Sample :=
  fun s =>
    (Returns (getBufferFullness s (fullnessCalls s)),
     set_fullnessCalls (S (fullnessCalls s)) s).

Definition startMonitoringBuffer : M unit :=
  x <- readBufferFullness ;;
  modify (set_bufferLevel (toFixed1 x)) ;;
  chosenVariant <- chooseVariant ;;
  match chosenVariant with
  | Some v => invokeSwitch v
  | None => ret tt
  end.

Definition init (switchQualityCallback : nat) : M unit :=
  modify (set_switchQualityCallback (Some switchQualityCallback)).

Definition configure (config : option Config) : M unit :=
  modify (set_config_ config).

(** [setVariants] stores the reference it is given. *)
Definition setVariants (variants : loc) : M unit :=
  modify (set_videoVariants variants).

Definition enable : M unit := modify (set_enabled_ true).
Definition disable : M unit := modify (set_enabled_ false).

(** Allocation of an array literal. *)
Definition newArray (contents : list Variant) : M loc :=
  fun s =>
    let l := fresh (dom (arrays s)) in
    (Returns l, set_arrays (<[l := contents]> (arrays s)) s).

Definition stop : M unit :=
  modify (set_switchQualityCallback None) ;;
  modify (set_isEnabled (Some false)) ;;
  empty <- newArray [] ;;
  modify (set_videoVariants empty) ;;
  modify (set_playbackRate 1) ;;
  modify (set_lastQualityChangeTime None).

(** *** Telemetry *)

(** [x || 0] for an optional number. *)
Definition orZero (x : option Z) : Z :=
  match x with Some z => z | None => 0 end.

(** [segmentDownloaded]; [now1] and [now2] are the two readings of
    [Date.now()], in the order the method takes them.  [request] is
    [None] when the caller leaves the argument out; the method reads
    [request.timeToFirstByte] without a guard. *)
Definition segmentDownloaded (deltaTimeMs numBytes : Z) (allowSwitch : bool)
    (request : option Request) (now1 now2 : Z) : M unit :=
  (if allowSwitch then startMonitoringBuffer else ret tt) ;;
  match request with
  | None => throw TypeError
  | Some request =>
      let liveLatency := deltaTimeMs + orZero (timeToFirstByte request) in
      let segmentDelay :=
        now1 - requestStartTime request + orZero (timeToFirstByte request) in
      let segmentData :=
        mkSegment (reqContentType request) now2 liveLatency segmentDelay in
      modify (fun s =>
        set_downloadedSegments (downloadedSegments s ++ [segmentData]) s)
  end.

(** **** Binary64 *)

(** The double nearest to an integer (ties to even), as the engine holds
    it; the conversion is exact below 2^53. *)
Definition Number_ofZ (z : Z) : float :=
  SF2Prim (binary_normalize prec emax z 0 false).

(** [Math.round]: the nearest integral double, a tie going towards
    +infinity.  A double with a non-negative exponent is integral already;
    otherwise its exact value is [m / 2^(-e)] up to the sign, and the
    result keeps the sign of a value that rounds to zero.  NaN, the zeros
    and the infinities come back as they are. *)
Definition Math_round (x : float) : float :=
  match Prim2SF x with
  | S754_finite negative m e =>
      if 0 <=? e then x
      else
        let exact := (if negative then Z.neg m else Z.pos m)
                     # (2 ^ Z.to_pos (- e)) in
        let r := roundHalfUp exact in
        if r =? 0 then (if negative then (-0)%float else 0%float)
        else Number_ofZ r
  | _ => x
  end.

(** [Math.pow(x, 2)]: the rounded product [x * x], which is what the
    engines return for the exponent 2. *)
Definition Math_pow2 (x : float) : float := (x * x)%float.

Definition getLatencyStatistics (s : State) : option LatencyStatistics :=
  match downloadedSegments s with
  | [] => None
  | first :: rest =>
      let latencies := map latency (first :: rest) in
      let sum := fold_left (fun a b => (a + Number_ofZ b)%float) latencies 0%float in
      Some (mkStats
              (sum / Number_ofZ (Z.of_nat (length latencies)))%float
              (fold_left Z.max (map latency rest) (latency first))
              (fold_left Z.min (map latency rest) (latency first)))
  end.

Definition calculateJitter (s : State) : float :=
  let delays := map (fun segment => Number_ofZ (delay segment))
                    (downloadedSegments s) in
  if (length delays <? 2)%nat then 0%float
  else
    let meanDelay :=
      (fold_left (fun sum delay => sum + delay) delays 0
       / Number_ofZ (Z.of_nat (length delays)))%float in
    let sumSquaredDifferences :=
      fold_left (fun sum delay => (sum + Math_pow2 (delay - meanDelay))%float)
                delays 0%float in
    let jitter :=
      PrimFloat.sqrt
        (sumSquaredDifferences / Number_ofZ (Z.of_nat (length delays) - 1))%float in
    (Math_round jitter / 1000)%float.

(** The result of an arithmetic expression that may not be a number. *)
Inductive JsNumber : Type :=
| NaN
| Num (z : Z).

(** [Math.abs(a - b)], where either operand may be [undefined]. *)
Definition absDifference (a b : option Z) : JsNumber :=
  match a, b with
  | Some a, Some b => Num (Z.abs (a - b))
  | _, _ => NaN
  end.

(** [calculateDelay(videoTimestamp, audioTimestamp)]; an argument the
    caller leaves out is [undefined]. *)
Definition calculateDelay (videoTimestamp audioTimestamp : option Z)
    (s : State) : JsNumber :=
  let step (tracked : option Z * option Z) (item : SegmentRecord) :=
    if String.eqb (contentType item) "video" then
      (Some (timestamp item), snd tracked)
    else if String.eqb (contentType item) "audio" then
      (fst tracked, Some (timestamp item))
    else tracked in
  let tracked :=
    fold_left step (downloadedSegments s) (videoTimestamp, audioTimestamp) in
  absDifference (fst tracked) (snd tracked).

(** *** The periodic monitor *)

(** The handler [startMonitoring] hands to [setInterval]; [currentTime] is
    its reading of [Date.now()].  [displayToContainer] dereferences the
    statistics, which are [null] while nothing has been downloaded, and
    writes the average latency (formatted by [toFixed(2)], which the log
    leaves out) to the page element, taken to exist. *)
Definition monitorTick (currentTime : Z) : M unit :=
  recentSegments <- gets (fun s =>
    filter (fun segment => currentTime - timestamp segment <= 5000)
           (downloadedSegments s)) ;;
  modify (set_lastDownloadedSegmentsCount (Some (length recentSegments))) ;;
  stats <- gets getLatencyStatistics ;;
  match stats with
  | None => throw TypeError
  | Some st => modify (fun s => set_displayed (displayed s ++ [averageLatency st]) s)
  end.

(** [startMonitoring]: registers the handler every 1000 ms; the handle
    [setInterval] returns is dropped. *)
Definition startMonitoring : M unit :=
  modify (fun s => set_intervals (intervals s ++ [1000]) s).

(** A timer tick: the handler runs if a timer is live; an exception it
    raises is lost in the event loop. *)
Definition tick (currentTime : Z) (s : State) : State :=
  match intervals s with
  | [] => s
  | _ :: _ => exec (monitorTick currentTime) s
  end.

(** *** Construction *)

(** The fields as the constructor assigns them, in a host whose array store
    is [store]; the array literal [[]] is allocated there. *)
Definition initialFields (getBufferFullnessCallback : nat -> Sample)
    (store : gmap loc (list Variant)) : State :=
  let l := fresh (dom store) in
  {| switchQualityCallback := None;
     enabled_ := false;
     isEnabled := None;
     videoVariants := l;
     getBufferFullness := getBufferFullnessCallback;
     downloadedSegments := [];
     playbackRate := 1;
     lastQualityChangeTime := None;
     config_ := None;
     highBufferThreshold := 8 # 10;
     lowBufferThreshold := 3 # 10;
     currentQualityIndex := 0;
     bufferLevel := LTenths 0;
     lastDownloadedSegmentsCount := None;
     arrays := <[l := []]> store;
     fullnessCalls := 0;
     switchCalls := [];
     intervals := [];
     displayed := [] |}.

(** [new BufferManager(getBufferFullnessCallback, player)]. *)
Definition construct (getBufferFullnessCallback : nat -> Sample)
    (store : gmap loc (list Variant)) : Outcome unit * State :=
  (startMonitoring ;; startMonitoringBuffer)
    (initialFields getBufferFullnessCallback store).

(** ** The second [BufferManager]

    The second class of the file repeats the first with a few changes:
    [increaseQuality] also sets [restrictToScreenSize] (and both steps
    log), the records of [segmentDownloaded] carry no delay, the monitor
    runs every 5000 ms and logs [calculateDelay()], and [calculateJitter]
    and the failure log are absent.  Its quality-switching path is
    modelled here; the methods it calls without change are those above. *)
Module Second.

Definition increaseQuality : M unit :=
  maxQualityIndex <- gets (fun s => catalogSize s - 1) ;;
  idx <- gets currentQualityIndex ;;
  if idx <? maxQualityIndex then
    modify (set_currentQualityIndex (idx + 1)) ;;
    v <- getVariantByQualityIndex (idx + 1) ;;
    bw <- bandwidthOf v ;;
    restrictions_ bw ;;
    (fun s =>
       match config_ s with
       | None => (Throws TypeError, s)
       | Some c =>
           (Returns tt,
            set_config_
              (Some (mkConfig (safeMarginSwitch c) (clearBufferSwitch c)
                       (restrictions c) true)) s)
       end)
  else ret tt.

Definition chooseVariant : M (option Variant) :=
  lvl <- gets bufferLevel ;;
  low <- gets lowBufferThreshold ;;
  high <- gets highBufferThreshold ;;
  (if level_lt lvl low then decreaseQuality
   else if level_gt lvl high then increaseQuality
   else ret tt) ;;
  idx <- gets currentQualityIndex ;;
  getVariantByQualityIndex idx.

Definition startMonitoringBuffer : M unit :=
  x <- readBufferFullness ;;
  modify (set_bufferLevel (toFixed1 x)) ;;
  chosenVariant <- chooseVariant ;;
  match chosenVariant with
  | Some v => invokeSwitch v
  | None => ret tt
  end.

End Second.

(** ** Calls made by the host *)

Inductive Call : Type :=
| CInit (switchQualityCallback : nat)
| CConfigure (config : option Config)
| CSetVariants (variants : loc)
| CEnable
| CDisable
| CStop
| CStartMonitoringBuffer
| CSegmentDownloaded (deltaTimeMs numBytes : Z) (allowSwitch : bool)
                     (request : option Request) (now1 now2 : Z)
| CTick (currentTime : Z).

(** The state after one call; what the call returned or threw is dropped,
    as it is by a host that goes on. *)
Definition perform (c : Call) (s : State) : State :=
  match c with
  | CInit f => exec (init f) s
  | CConfigure cfg => exec (configure cfg) s
  | CSetVariants l => exec (setVariants l) s
  | CEnable => exec enable s
  | CDisable => exec disable s
  | CStop => exec stop s
  | CStartMonitoringBuffer => exec startMonitoringBuffer s
  | CSegmentDownloaded d n a r t1 t2 => exec (segmentDownloaded d n a r t1 t2) s
  | CTick t => tick t s
  end.

Definition run (calls : list Call) (s : State) : State :=
  fold_left (fun s c => perform c s) calls s.


(** * Notions used in the statements *)

(** ** The catalog order *)

Definition bandwidthLe (a b : Variant) : Prop := bandwidth a <= bandwidth b.

(** ** One evaluation *)

(** The level [startMonitoringBuffer] is about to observe: the next sample
    after [toFixed(1)]. *)
Definition observedLevel (s : State) : Level :=
  toFixed1 (getBufferFullness s (fullnessCalls s)).

(** The state once [startMonitoringBuffer] has read and rounded its
    sample. *)
Definition sampled (s : State) : State :=
  set_bufferLevel (observedLevel s) (set_fullnessCalls (S (fullnessCalls s)) s).

(** The index [chooseVariant] moves to, from the level it reads. *)
Definition nextIndex (s : State) : Z :=
  let idx := currentQualityIndex s in
  if level_lt (bufferLevel s) (lowBufferThreshold s) then
    if 0 <? idx then idx - 1 else idx
  else if level_gt (bufferLevel s) (highBufferThreshold s) then
    if idx <? catalogSize s - 1 then idx + 1 else idx
  else idx.

(** The configuration after [restrictions(bw)] on configuration [c]. *)
Definition capped (c : Config) (bw : Z) : Config :=
  mkConfig (safeMarginSwitch c) (clearBufferSwitch c)
           (Some (mkRestrictions (Some bw))) (restrictToScreenSize c).

(** A state in which an evaluation cannot throw: the configuration and its
    [restrictions] are set, a callback is registered and the index is a
    rank of the catalog. *)
Definition wellConfigured (s : State) : Prop :=
  (exists c r, config_ s = Some c /\ restrictions c = Some r) /\
  (exists f, switchQualityCallback s = Some f) /\
  0 <= currentQualityIndex s < catalogSize s.

(** ** Recording *)

(** The record [segmentDownloaded] builds. *)
Definition segmentRecord (deltaTimeMs : Z) (request : Request) (now1 now2 : Z)
  : SegmentRecord :=
  mkSegment (reqContentType request) now2
            (deltaTimeMs + orZero (timeToFirstByte request))
            (now1 - requestStartTime request + orZero (timeToFirstByte request)).

Definition recordSegment (r : SegmentRecord) (s : State) : State :=
  set_downloadedSegments (downloadedSegments s ++ [r]) s.

(** ** Sessions *)

(** Everything of a state but the identity of its catalog array and the
    store the array lives in. *)
Definition managerView (s : State) :=
  (switchQualityCallback s, enabled_ s, isEnabled s, catalog s,
   downloadedSegments s, playbackRate s, lastQualityChangeTime s, config_ s,
   currentQualityIndex s, bufferLevel s, lastDownloadedSegmentsCount s,
   fullnessCalls s, switchCalls s, intervals s, displayed s).

Definition isInit (c : Call) : bool :=
  match c with CInit _ => true | _ => false end.

(** A computation that neither reads nor writes [enabled_]. *)
Definition flagBlind {A} (m : M A) : Prop :=
  forall (b : bool) (s : State),
    m (set_enabled_ b s) = (fst (m s), set_enabled_ b (snd (m s))).

(** ** Sample standard deviation

    As the specification words it, in the arithmetic of the program: the
    square root of the sum of the squared deviations from the mean over
    [n - 1], every operation rounded to binary64 and the sums taken from
    the first sample to the last. *)

Fixpoint sum64 (acc : float) (xs : list float) : float :=
  match xs with
  | [] => acc
  | x :: rest => sum64 (acc + x)%float rest
  end.

Definition mean64 (xs : list float) : float :=
  (sum64 0 xs / Number_ofZ (Z.of_nat (length xs)))%float.

Definition sampleDeviation64 (xs : list float) : float :=
  PrimFloat.sqrt
    (sum64 0 (map (fun x => (x - mean64 xs) * (x - mean64 xs))%float xs)
     / Number_ofZ (Z.of_nat (length xs) - 1))%float.

(** ** The value of a double

    The rational a finite double stands for: [m * 2^e], with its sign;
    both zeros stand for 0, NaN and the infinities for nothing. *)

Definition valueOf (x : float) : option Q :=
  match Prim2SF x with
  | S754_zero _ => Some 0%Q
  | S754_finite negative m e =>
      let significand := if negative then Z.neg m else Z.pos m in
      Some (if 0 <=? e then inject_Z (significand * 2 ^ e)
            else significand # (2 ^ Z.to_pos (- e)))
  | _ => None
  end.

Definition hasValue (x : float) (q : Q) : Prop :=
  match valueOf x with
  | Some v => (v == q)%Q
  | None => False
  end.

(** ** Last-seen timestamps *)

(** The timestamp of the last record of a content type, if there is one. *)
Definition lastSeen (type : string) (records : list SegmentRecord) : option Z :=
  last (map timestamp
            (List.filter (fun item => String.eqb (contentType item) type) records)).

(** What is tracked for a type once all records are scanned: its last
    timestamp, or the caller's argument when it has no record. *)
Definition trackedFor (type : string) (records : list SegmentRecord)
    (argument : option Z) : option Z :=
  match lastSeen type records with
  | Some t => Some t
  | None => argument
  end.

(** * Sessions used in the examples *)

Definition v100 : Variant := mkVariant 0 100.
Definition v500 : Variant := mkVariant 1 500.
Definition v1000 : Variant := mkVariant 2 1000.

Definition demoConfig : Config :=
  mkConfig false false (Some (mkRestrictions None)) false.

Definition demoRequest : Request := mkRequest "video" (Some 5) 1000.

(** The host's array, in the order the manifest lists it, at reference 1. *)
Definition demoStore : gmap loc (list Variant) :=
  {[ 1%positive := [v1000; v100; v500] ]}.

(** A host whose buffer is always at [q]. *)
Definition steady (q : Q) : nat -> Sample := fun _ => SFin q.

(** A host whose buffer reads 0.9 on its first [high] calls and 0.1 after. *)
Definition fullThenDrained (high : nat) : nat -> Sample :=
  fun n => if (n <? high)%nat then SFin (9 # 10) else SFin (1 # 10).

(** A manager that has been constructed, configured, given a callback and
    the catalog; its index is 0. *)
Definition demoSession (fullness : nat -> Sample) : State :=
  run [CConfigure (Some demoConfig); CInit 7%nat; CSetVariants 1%positive]
      (snd (construct fullness demoStore)).

(** A manager that has been constructed and given the catalog, and
    nothing else. *)
Definition bareSession : State :=
  exec (setVariants 1%positive) (snd (construct (steady (5 # 10)) demoStore)).

(** The demo session taken to index 2 by two high samples; the next sample
    is 0.1. *)
Definition atTopRank : State :=
  run [CStartMonitoringBuffer; CStartMonitoringBuffer]
      (demoSession (fullThenDrained 3)).

(** A session that has climbed to index 1 and is then stopped: [stop]
    empties the catalog and keeps the index.  The next sample is 0.1. *)
Definition stoppedAtRankOne : State :=
  run [CStartMonitoringBuffer; CStop] (demoSession (fullThenDrained 2)).

(** A session with one download on record, then stopped. *)
Definition stoppedSession : State :=
  run [CSegmentDownloaded 10 4096 false (Some demoRequest) 1100 1101; CStop]
      (demoSession (steady (5 # 10))).

(** Three downloads whose delays are 100, 200 and 300 ms. *)
Definition threeDownloads : State :=
  run [CSegmentDownloaded 10 4096 false (Some (mkRequest "video" None 1000)) 1100 1101;
       CSegmentDownloaded 10 4096 false (Some (mkRequest "audio" None 1000)) 1200 1201;
       CSegmentDownloaded 10 4096 false (Some (mkRequest "video" None 1000)) 1300 1301]
      (demoSession (steady (5 # 10))).

(** * The rest of the file *)

(** ** The failure log of [setupErrorHandling]

    The response filter reads the response and writes [failedSegments]
    (and the console) only, so it is modelled on that list. *)
Record Response : Type := mkResponse {
  uri : string;
  status : Z
}.

Record FailedSegment : Type := mkFailedSegment {
  failedUri : string;
  failedTimestamp : Z;
  failedStatus : Z
}.

(** One run of the filter on a response received at time [now]. *)
Definition responseFilter (response : Response) (now : Z)
    (failedSegments : list FailedSegment) : list FailedSegment :=
  if 400 <=? status response then
    failedSegments ++ [mkFailedSegment (uri response) now (status response)]
  else failedSegments.

(** The filter run on the responses of a session, each with the time it
    arrived at. *)
Definition filterResponses (responses : list (Response * Z))
    (failedSegments : list FailedSegment) : list FailedSegment :=
  fold_left (fun failed r => responseFilter (fst r) (snd r) failed)
            responses failedSegments.

(** ** [StreamingChart] *)
Module StreamingChart.

Record Chart : Type := mkChart {
  chart : option nat;          (* the Chart object, [null] before [init] *)
  labels : list string;        (* [data.labels] *)
  datasetData : list Q;        (* [data.datasets[0].data] *)
  redraws : nat                (* calls of [chart.update()] *)
}.

(** [new StreamingChart(canvasId, options)]. *)
Definition construct : Chart := mkChart None [] [] 0.

(** [init()], in a page that has the canvas; [handle] is the Chart object
    the library builds. *)
Definition init (handle : nat) (c : Chart) : Chart :=
  mkChart (Some handle) (labels c) (datasetData c) (redraws c).

(** [updateData(newData)]; [label] is what [toLocaleTimeString()]
    returns.  Both pushes come before [this.chart.update()], which throws
    on a chart that was never initialised. *)
Definition updateData (newData : Q) (label : string) (c : Chart)
  : Outcome unit * Chart :=
  let pushed := mkChart (chart c) (labels c ++ [label])
                        (datasetData c ++ [newData]) (redraws c) in
  match chart c with
  | None => (Throws TypeError, pushed)
  | Some _ =>
      (Returns tt,
       mkChart (chart pushed) (labels pushed) (datasetData pushed)
               (S (redraws pushed)))
  end.

(** A sequence of updates, as the interval of [startStreaming] makes
    them; an exception is lost in the event loop. *)
Definition stream (updates : list (Q * string)) (c : Chart) : Chart :=
  fold_left (fun c u => snd (updateData (fst u) (snd u) c)) updates c.

End StreamingChart.

(** ** Further notions used in the statements *)

(** The state with the [restrictToScreenSize] flag of its configuration
    put down. *)
Definition withoutScreenFlag (s : State) : State :=
  set_config_
    (option_map
       (fun c => mkConfig (safeMarginSwitch c) (clearBufferSwitch c)
                          (restrictions c) false)
       (config_ s)) s.

(** The records the [segmentDownloaded] calls of a sequence build. *)
Definition recordsOf (calls : list Call) : list SegmentRecord :=
  flat_map
    (fun c =>
       match c with
       | CSegmentDownloaded d _ _ (Some r) t1 t2 => [segmentRecord d r t1 t2]
       | _ => []
       end)
    calls.

(** Nine delays whose standard deviation is 7/2 in exact arithmetic. *)
Definition nineDelays : list Z := [141; 137; 134; 135; 135; 140; 141; 132; 141].

(** A log of one record per delay, each download taking as long as its
    delay. *)
Definition logOfDelays (delays : list Z) : State :=
  run (map (fun d => CSegmentDownloaded d 4096 false
                       (Some (mkRequest "video" None 0)) d d)
           delays)
      (demoSession (steady (5 # 10))).

(** The index an evaluation moves to, read off the raw sample [q]: the
    rounding of [toFixed(1)] puts the low mark at 0.25 and the high mark
    at 0.85. *)
Definition nextIndexOfSample (q : Q) (idx size : Z) : Z :=
  if Qltb q (1 # 4) then (if 0 <? idx then idx - 1 else idx)
  else if Qle_bool (17 # 20) q then (if idx <? size - 1 then idx + 1 else idx)
  else idx.

(** A host with two arrays: the catalog of the examples and a shorter
    one. *)
Definition twoCatalogs : gmap loc (list Variant) :=
  {[ 1%positive := [v1000; v100; v500]; 2%positive := [v100] ]}.

(** A session that climbs to index 2 and is then given the short
    catalog; the samples after that read 0.1. *)
Definition shrunkSession : State :=
  run [CConfigure (Some demoConfig); CInit 7%nat; CSetVariants 1%positive;
       CStartMonitoringBuffer; CStartMonitoringBuffer;
       CSetVariants 2%positive]
      (snd (construct (fullThenDrained 3) twoCatalogs)).

(** * Proof tooling *)

Arguments Array_sort : simpl never.

Ltac unfold_methods :=
  unfold exec, outcome, startMonitoringBuffer, Second.startMonitoringBuffer,
    chooseVariant, Second.chooseVariant, decreaseQuality, increaseQuality,
    Second.increaseQuality, readBufferFullness, invokeSwitch,
    getVariantByQualityIndex, bandwidthOf, restrictions_,
    bind, gets, modify, ret, throw in *.

(** Case analysis on the innermost test of the goal. *)
Ltac innermost x :=
  lazymatch x with
  | context [match _ with _ => _ end] => fail
  | _ => idtac
  end.

Ltac split_case :=
  match goal with
  | |- context [match ?x with _ => _ end] => innermost x; destruct x eqn:?
  end.

Ltac split_cases := repeat (split_case; cbn in *).

(** Brings every catalog read in the hypotheses back to the empty array
    the catalog of the initial state is known to be, by [Hcat], and closes
    the goal when a variant is said to have been read from it. *)
Ltac read_catalog Hcat :=
  repeat match goal with
         | H : context [<[?l := _]> _ !! ?l] |- _ =>
             rewrite lookup_insert_eq in H; cbn in H
         | H : context [default [] (arrays ?s !! videoVariants ?s)] |- _ =>
             lazymatch H with Hcat => fail | _ => rewrite Hcat in H end
         | H : context [Array_sort ?cmp []] |- _ =>
             change (Array_sort cmp []) with (@nil Variant) in H
         | H : Array_get [] ?i = Some _ |- _ =>
             unfold Array_get in H; destruct (i <? 0); discriminate H
         end.

Ltac decide_tests :=
  repeat match goal with
         | H : (_ <? _) = true |- _ => apply Z.ltb_lt in H
         | H : (_ <? _) = false |- _ => apply Z.ltb_ge in H
         end.
(** * Properties *)

(** ** Sorting by bandwidth *)

Section ArraySort.
Context {A : Type} (cmp : A -> A -> Z).

Lemma Array_insert_perm (a : A) (arr : list A) :
  Permutation (Array_insert cmp a arr) (a :: arr).
Proof.
  induction arr as [|b rest IH]; simpl; [reflexivity|].
  destruct (cmp a b <=? 0); [reflexivity|].
  rewrite IH. apply perm_swap.
Qed.

Lemma Array_sort_cons (a : A) (arr : list A) :
  Array_sort cmp (a :: arr) = Array_insert cmp a (Array_sort cmp arr).
Proof. reflexivity. Qed.

Lemma Array_sort_perm (arr : list A) : Permutation (Array_sort cmp arr) arr.
Proof.
  induction arr as [|a rest IH]; [reflexivity|].
  rewrite Array_sort_cons, Array_insert_perm. now constructor.
Qed.

Lemma Array_sort_length (arr : list A) :
  length (Array_sort cmp arr) = length arr.
Proof. apply Permutation_length, Array_sort_perm. Qed.
End ArraySort.

Lemma Array_insert_sorted (v : Variant) (arr : list Variant) :
  Sorted bandwidthLe arr -> Sorted bandwidthLe (Array_insert byBandwidth v arr).
Proof.
  induction 1 as [|w rest Hrest IH Hhd]; simpl.
  - repeat constructor.
  - unfold byBandwidth at 1.
    destruct (Z.leb_spec (bandwidth v - bandwidth w) 0) as [Hle|Hgt].
    + constructor; [now constructor|]. constructor. unfold bandwidthLe. lia.
    + constructor; [exact IH|].
      destruct Hhd as [|u rest' Hu]; simpl.
      * constructor. unfold bandwidthLe. lia.
      * destruct (byBandwidth v u <=? 0); constructor;
          unfold bandwidthLe in *; lia.
Qed.

Lemma Array_sort_sorted (arr : list Variant) :
  Sorted bandwidthLe (Array_sort byBandwidth arr).
Proof.
  induction arr as [|v rest IH]; [constructor|].
  rewrite Array_sort_cons. now apply Array_insert_sorted.
Qed.

Lemma bandwidthLe_trans : Relations_1.Transitive bandwidthLe.
Proof. intros a b c; unfold bandwidthLe; lia. Qed.

Lemma Array_sort_strongly_sorted (arr : list Variant) :
  StronglySorted bandwidthLe (Array_sort byBandwidth arr).
Proof.
  apply Sorted_StronglySorted; [exact bandwidthLe_trans | apply Array_sort_sorted].
Qed.

(** Sorting an array that is already in order leaves it as it is. *)
Lemma Array_sort_fixpoint (arr : list Variant) :
  Sorted bandwidthLe arr -> Array_sort byBandwidth arr = arr.
Proof.
  induction 1 as [|v rest Hrest IH Hhd]; [reflexivity|].
  rewrite Array_sort_cons, IH.
  destruct Hhd as [|w rest' Hvw]; simpl; [reflexivity|].
  unfold byBandwidth, bandwidthLe in *.
  destruct (Z.leb_spec (bandwidth v - bandwidth w) 0); [reflexivity | lia].
Qed.

Lemma Array_sort_idem (arr : list Variant) :
  Array_sort byBandwidth (Array_sort byBandwidth arr) = Array_sort byBandwidth arr.
Proof. apply Array_sort_fixpoint, Array_sort_sorted. Qed.

Lemma Array_get_Some {A} (arr : list A) (i : Z) :
  0 <= i < Z.of_nat (length arr) -> exists a, Array_get arr i = Some a.
Proof.
  intros [Hlo Hhi]. unfold Array_get.
  destruct (Z.ltb_spec i 0); [lia|].
  destruct (lookup_lt_is_Some_2 arr (Z.to_nat i)) as [a Ha]; [lia|].
  now exists a.
Qed.

(** ** What [getVariantByQualityIndex] does to the state *)

Lemma catalog_set_arrays_self (s : State) (arr : list Variant) :
  catalog (set_arrays (<[videoVariants s := arr]> (arrays s)) s) = arr.
Proof. unfold catalog; simpl. now rewrite lookup_insert_eq. Qed.

Lemma getVariant_outcome (i : Z) (s : State) :
  fst (getVariantByQualityIndex i s)
  = Returns (Array_get (Array_sort byBandwidth (catalog s)) i).
Proof. reflexivity. Qed.

Lemma getVariant_catalog (i : Z) (s : State) :
  catalog (snd (getVariantByQualityIndex i s))
  = Array_sort byBandwidth (catalog s).
Proof. apply catalog_set_arrays_self. Qed.

(** ** One evaluation, step by step *)

Lemma chooseVariant_index (s : State) :
  currentQualityIndex (exec chooseVariant s) = nextIndex s.
Proof.
  unfold nextIndex. unfold_methods. cbn.
  split_cases; congruence.
Qed.

Lemma nextIndex_near (s : State) :
  Z.abs (nextIndex s - currentQualityIndex s) <= 1.
Proof.
  unfold nextIndex.
  destruct (level_lt _ _); [|destruct (level_gt _ _)];
    try destruct (_ <? _); lia.
Qed.

Lemma nextIndex_clamped (s : State) :
  0 <= currentQualityIndex s <= Z.max 0 (catalogSize s - 1) ->
  0 <= nextIndex s <= Z.max 0 (catalogSize s - 1).
Proof.
  unfold nextIndex. intros Hin.
  destruct (level_lt _ _); [|destruct (level_gt _ _)]; [| |lia].
  - destruct (Z.ltb_spec 0 (currentQualityIndex s)); lia.
  - destruct (Z.ltb_spec (currentQualityIndex s) (catalogSize s - 1)); lia.
Qed.

Lemma chooseVariant_catalog (s : State) :
  catalog (exec chooseVariant s) = Array_sort byBandwidth (catalog s).
Proof.
  unfold_methods. cbn. split_cases;
    unfold catalog; cbn; rewrite ?lookup_insert_eq; cbn;
    rewrite ?Array_sort_idem; reflexivity.
Qed.

(** *** [startMonitoringBuffer] *)

Lemma startMonitoringBuffer_index (s : State) :
  currentQualityIndex (exec startMonitoringBuffer s) = nextIndex (sampled s).
Proof.
  unfold nextIndex, sampled, observedLevel. unfold_methods. cbn.
  split_cases; congruence.
Qed.

Lemma startMonitoringBuffer_catalog (s : State) :
  catalog (exec startMonitoringBuffer s) = Array_sort byBandwidth (catalog s).
Proof.
  unfold_methods. cbn. split_cases;
    unfold catalog; cbn; rewrite ?lookup_insert_eq; cbn;
    rewrite ?Array_sort_idem; reflexivity.
Qed.

Lemma startMonitoringBuffer_catalogSize (s : State) :
  catalogSize (exec startMonitoringBuffer s) = catalogSize s.
Proof.
  unfold catalogSize.
  now rewrite startMonitoringBuffer_catalog, Array_sort_length.
Qed.

Lemma startMonitoringBuffer_level (s : State) :
  bufferLevel (exec startMonitoringBuffer s) = observedLevel s.
Proof.
  unfold observedLevel. unfold_methods. cbn. split_cases; congruence.
Qed.

Lemma startMonitoringBuffer_fullnessCalls (s : State) :
  fullnessCalls (exec startMonitoringBuffer s) = S (fullnessCalls s).
Proof. unfold_methods. cbn. split_cases; congruence. Qed.

Lemma startMonitoringBuffer_downloadedSegments (s : State) :
  downloadedSegments (exec startMonitoringBuffer s) = downloadedSegments s.
Proof. unfold_methods. cbn. split_cases; congruence. Qed.

Lemma startMonitoringBuffer_callback (s : State) :
  switchQualityCallback (exec startMonitoringBuffer s) = switchQualityCallback s.
Proof. unfold_methods. cbn. split_cases; congruence. Qed.

Lemma startMonitoringBuffer_intervals (s : State) :
  intervals (exec startMonitoringBuffer s) = intervals s.
Proof. unfold_methods. cbn. split_cases; congruence. Qed.

(** Without a registered callback nothing is ever passed to the host. *)
Lemma startMonitoringBuffer_unregistered (s : State) :
  switchQualityCallback s = None ->
  switchCalls (exec startMonitoringBuffer s) = switchCalls s.
Proof.
  intros Hcb. unfold_methods. cbn. split_cases; congruence.
Qed.

Lemma nextIndex_sampled (s : State) :
  nextIndex (sampled s)
  = let idx := currentQualityIndex s in
    if level_lt (observedLevel s) (lowBufferThreshold s) then
      if 0 <? idx then idx - 1 else idx
    else if level_gt (observedLevel s) (highBufferThreshold s) then
      if idx <? catalogSize s - 1 then idx + 1 else idx
    else idx.
Proof. reflexivity. Qed.

(** An evaluation in a well-configured state returns. *)
Lemma startMonitoringBuffer_returns (s : State) :
  wellConfigured s -> outcome startMonitoringBuffer s = Returns tt.
Proof.
  intros [(c & r & Hc & Hr) [[f Hf] Hin]].
  pose proof (nextIndex_clamped (sampled s)) as Hnext.
  rewrite nextIndex_sampled in Hnext. cbv zeta in Hnext.
  assert (Hrank : forall i, 0 <= i < catalogSize s ->
            Array_get (Array_sort byBandwidth (catalog s)) i <> None).
  { intros i Hi Hnone.
    destruct (Array_get_Some (Array_sort byBandwidth (catalog s)) i) as [v Hv];
      [rewrite Array_sort_length; exact Hi | congruence]. }
  unfold catalogSize in *.
  unfold sampled, observedLevel in *. unfold_methods.
  unfold catalogSize, catalog in *. cbn in *.
  split_cases; try congruence;
    rewrite ?lookup_insert_eq in *; cbn in *;
    rewrite ?Array_sort_idem in *;
    try match goal with
        | H : Array_get _ ?i = None |- _ => exfalso; apply (Hrank i); [|exact H]
        end;
    decide_tests; try lia.
Qed.

(** [segmentDownloaded] is the evaluation, if one is allowed, followed by
    the recording; an evaluation that throws ends the call. *)
Lemma segmentDownloaded_unfold (d n : Z) (a : bool) (r : option Request)
    (t1 t2 : Z) (s : State) :
  segmentDownloaded d n a r t1 t2 s
  = match r with
    | Some request =>
        if a then
          match startMonitoringBuffer s with
          | (Returns _, s') =>
              (Returns tt, recordSegment (segmentRecord d request t1 t2) s')
          | (Throws e, s') => (Throws e, s')
          end
        else (Returns tt, recordSegment (segmentRecord d request t1 t2) s)
    | None =>
        if a then
          match startMonitoringBuffer s with
          | (Returns _, s') => (Throws TypeError, s')
          | (Throws e, s') => (Throws e, s')
          end
        else (Throws TypeError, s)
    end.
Proof.
  unfold segmentDownloaded, bind at 1.
  destruct a; [|destruct r; reflexivity].
  destruct (startMonitoringBuffer s) as [[[]|e] s']; destruct r; reflexivity.
Qed.

(** ** C1: the index moves one rank at a time and stays in the catalog *)

Lemma evaluation_moves_one_rank (s : State) :
  Z.abs (currentQualityIndex (exec startMonitoringBuffer s)
         - currentQualityIndex s) <= 1.
Proof.
  rewrite startMonitoringBuffer_index.
  pose proof (nextIndex_near (sampled s)) as H. exact H.
Qed.

Lemma evaluation_keeps_rank_clamped (s : State) :
  0 <= currentQualityIndex s <= Z.max 0 (catalogSize s - 1) ->
  0 <= currentQualityIndex (exec startMonitoringBuffer s)
    <= Z.max 0 (catalogSize s - 1).
Proof.
  intros Hin. rewrite startMonitoringBuffer_index.
  exact (nextIndex_clamped (sampled s) Hin).
Qed.

Lemma evaluations_keep_rank_clamped (n : nat) (s : State) :
  0 <= currentQualityIndex s <= Z.max 0 (catalogSize s - 1) ->
  catalogSize (Nat.iter n (exec startMonitoringBuffer) s) = catalogSize s /\
  0 <= currentQualityIndex (Nat.iter n (exec startMonitoringBuffer) s)
    <= Z.max 0 (catalogSize s - 1).
Proof.
  intros Hin. induction n as [|n [IHsize IHin]]; simpl; [auto|].
  rewrite startMonitoringBuffer_catalogSize. split; [exact IHsize|].
  rewrite <- IHsize. apply evaluation_keeps_rank_clamped.
  now rewrite IHsize.
Qed.

(** C1 (as amended).  Whatever samples the host supplies (the answers of
    [getBufferFullness s] are arbitrary), each call of
    [startMonitoringBuffer] moves [currentQualityIndex] by at most one, in
    every state; and over any number of calls the catalog keeps its size
    and an index that starts in [0, max(0, catalogSize - 1)] stays there:
    in [0, catalogSize - 1] for a catalog that is not empty, at 0 for an
    empty one. *)
Theorem index_moves_one_rank_within_catalog (n : nat) (s : State) :
  let evaluate := exec startMonitoringBuffer in
  (forall k : nat,
      Z.abs (currentQualityIndex (Nat.iter (S k) evaluate s)
             - currentQualityIndex (Nat.iter k evaluate s)) <= 1) /\
  (0 <= currentQualityIndex s <= Z.max 0 (catalogSize s - 1) ->
   catalogSize (Nat.iter n evaluate s) = catalogSize s /\
   0 <= currentQualityIndex (Nat.iter n evaluate s)
     <= Z.max 0 (catalogSize s - 1)).
Proof.
  intros evaluate. split.
  - intros k. simpl. apply evaluation_moves_one_rank.
  - apply evaluations_keep_rank_clamped.
Qed.

Lemma index_moves_one_rank_within_catalog_witness :
  let s := demoSession (steady (9 # 10)) in
  0 <= currentQualityIndex s <= Z.max 0 (catalogSize s - 1) /\
  catalogSize (Nat.iter 5 (exec startMonitoringBuffer) s) = 3 /\
  0 <= currentQualityIndex (Nat.iter 5 (exec startMonitoringBuffer) s) <= 2.
Proof.
  intros s.
  assert (Hin : 0 <= currentQualityIndex s <= Z.max 0 (catalogSize s - 1))
    by (vm_compute; split; discriminate).
  split; [exact Hin|].
  exact (proj2 (index_moves_one_rank_within_catalog 5 s) Hin).
Defined.

(** C1, as stated, fails for the empty catalog: a freshly constructed
    manager holds index 0 while [0, catalogSize - 1] = [0, -1] is empty. *)
Lemma index_outside_empty_catalog :
  let s := exec startMonitoringBuffer (snd (construct (steady (5 # 10)) ∅)) in
  catalogSize s = 0 /\
  ~ (0 <= currentQualityIndex s <= catalogSize s - 1).
Proof. vm_compute. split; [reflexivity|]. intros [_ H]. apply H. reflexivity. Qed.

(** ** C2: a low buffer steps one rank down *)

Lemma startMonitoringBuffer_down (s : State) :
  level_lt (observedLevel s) (lowBufferThreshold s) = true ->
  0 < currentQualityIndex s ->
  currentQualityIndex (exec startMonitoringBuffer s) = currentQualityIndex s - 1.
Proof.
  intros Hlow Hpos. rewrite startMonitoringBuffer_index, nextIndex_sampled.
  cbv zeta. rewrite Hlow.
  destruct (Z.ltb_spec 0 (currentQualityIndex s)); [reflexivity | lia].
Qed.

Lemma startMonitoringBuffer_down_config (s : State) (c : Config)
    (r : Restrictions) (v : Variant) :
  level_lt (observedLevel s) (lowBufferThreshold s) = true ->
  0 < currentQualityIndex s ->
  Array_get (Array_sort byBandwidth (catalog s)) (currentQualityIndex s - 1)
  = Some v ->
  config_ s = Some c -> restrictions c = Some r ->
  config_ (exec startMonitoringBuffer s) = Some (capped c (bandwidth v)).
Proof.
  unfold observedLevel, capped. intros Hlow Hpos Hv Hc Hr.
  apply Z.ltb_lt in Hpos.
  unfold_methods. unfold catalog in *. cbn.
  split_cases; congruence.
Qed.

(** C2 (as amended).  When the level [startMonitoringBuffer] observes
    (the sample after [toFixed(1)]) is strictly below
    [lowBufferThreshold] and [currentQualityIndex > 0], the index goes
    down by exactly one; and,
    the rank below being in the catalog and the configuration carrying a
    [restrictions] object, [restrictions.maxBandwidth] then holds the
    bandwidth of the variant at the new index, the rest of the
    configuration being as before. *)
Theorem low_buffer_steps_one_rank_down (s : State) :
  level_lt (observedLevel s) (lowBufferThreshold s) = true ->
  0 < currentQualityIndex s ->
  let s' := exec startMonitoringBuffer s in
  bufferLevel s' = observedLevel s /\
  currentQualityIndex s' = currentQualityIndex s - 1 /\
  forall (c : Config) (r : Restrictions),
    currentQualityIndex s - 1 < catalogSize s ->
    config_ s = Some c -> restrictions c = Some r ->
    exists v : Variant,
      Array_get (catalog s') (currentQualityIndex s') = Some v /\
      config_ s' = Some (capped c (bandwidth v)).
Proof.
  intros Hlow Hpos s'. subst s'.
  rewrite startMonitoringBuffer_level, startMonitoringBuffer_catalog,
    (startMonitoringBuffer_down s Hlow Hpos).
  split; [reflexivity|]. split; [reflexivity|].
  intros c r Hrank Hc Hr.
  destruct (Array_get_Some (Array_sort byBandwidth (catalog s))
              (currentQualityIndex s - 1)) as [v Hv].
  { rewrite Array_sort_length. unfold catalogSize in Hrank. lia. }
  exists v. split; [exact Hv|].
  now apply (startMonitoringBuffer_down_config s c r v).
Qed.

Lemma low_buffer_steps_one_rank_down_witness :
  let s' := exec startMonitoringBuffer atTopRank in
  level_lt (observedLevel atTopRank) (lowBufferThreshold atTopRank) = true /\
  0 < currentQualityIndex atTopRank /\
  currentQualityIndex s' = currentQualityIndex atTopRank - 1 /\
  exists v : Variant,
    Array_get (catalog s') (currentQualityIndex s') = Some v /\
    config_ s' = Some (capped (capped demoConfig 1000) (bandwidth v)).
Proof.
  intros s'.
  assert (Hlow : level_lt (observedLevel atTopRank)
                          (lowBufferThreshold atTopRank) = true)
    by (vm_compute; reflexivity).
  assert (Hpos : 0 < currentQualityIndex atTopRank)
    by (vm_compute; reflexivity).
  assert (Hrank : currentQualityIndex atTopRank - 1 < catalogSize atTopRank)
    by (vm_compute; reflexivity).
  assert (Hc : config_ atTopRank = Some (capped demoConfig 1000))
    by (vm_compute; reflexivity).
  assert (Hr : restrictions (capped demoConfig 1000)
               = Some (mkRestrictions (Some 1000)))
    by reflexivity.
  destruct (low_buffer_steps_one_rank_down atTopRank Hlow Hpos)
    as (_ & Hstep & Hcap).
  split; [exact Hlow|]. split; [exact Hpos|]. split; [exact Hstep|].
  exact (Hcap _ _ Hrank Hc Hr).
Defined.

(** C2, as stated, fails where the rank below is outside the catalog: the
    session has climbed to index 2 and was then given an array of one
    variant.  The level 0.1 is low and the index positive, so
    [decreaseQuality] moves the index to 1 and reads [.bandwidth] of
    [undefined]: the evaluation throws, there is no variant at the new
    index and [restrictions.maxBandwidth] keeps the cap it had. *)
Lemma low_buffer_below_short_catalog_writes_no_cap :
  let s := shrunkSession in
  let s' := exec startMonitoringBuffer s in
  level_lt (observedLevel s) (lowBufferThreshold s) = true /\
  currentQualityIndex s = 2 /\
  map bandwidth (catalog s) = [100] /\
  outcome startMonitoringBuffer s = Throws TypeError /\
  currentQualityIndex s' = 1 /\
  Array_get (catalog s') (currentQualityIndex s') = None /\
  config_ s = Some (capped demoConfig 1000) /\
  config_ s' = config_ s.
Proof. vm_compute. repeat split; reflexivity. Qed.

(** The example of the specification: from index 2 in the catalog
    [100, 500, 1000], the sample 0.1 leads to index 1 and a cap of 500. *)
Example low_sample_from_top_rank :
  map bandwidth (catalog atTopRank) = [100; 500; 1000] /\
  currentQualityIndex atTopRank = 2 /\
  observedLevel atTopRank = LTenths 1 /\
  let s' := exec startMonitoringBuffer atTopRank in
  currentQualityIndex s' = 1 /\
  config_ s' = Some (capped demoConfig 500).
Proof. vm_compute. repeat split; reflexivity. Qed.

(** The level is compared after rounding: a sample of 0.26 is observed as
    "0.3", which is not below the threshold, and the index stays. *)
Example rounded_sample_on_low_threshold :
  let s := run [CStartMonitoringBuffer] (demoSession (fullThenDrained 2)) in
  toFixed1 (SFin (26 # 100)) = LTenths 3 /\
  level_lt (LTenths 3) (lowBufferThreshold s) = false /\
  level_lt (LTenths 2) (lowBufferThreshold s) = true.
Proof. vm_compute. repeat split; reflexivity. Qed.

(** ** C3: a high buffer steps one rank up *)

Lemma startMonitoringBuffer_up (s : State) :
  level_lt (observedLevel s) (lowBufferThreshold s) = false ->
  level_gt (observedLevel s) (highBufferThreshold s) = true ->
  currentQualityIndex s < catalogSize s - 1 ->
  currentQualityIndex (exec startMonitoringBuffer s) = currentQualityIndex s + 1.
Proof.
  intros Hlow Hhigh Hmax. rewrite startMonitoringBuffer_index, nextIndex_sampled.
  cbv zeta. rewrite Hlow, Hhigh.
  destruct (Z.ltb_spec (currentQualityIndex s) (catalogSize s - 1));
    [reflexivity | lia].
Qed.

(** In the first manager an upward step caps the bandwidth and leaves
    [restrictToScreenSize] as it was. *)
Lemma startMonitoringBuffer_up_config (s : State) (c : Config)
    (r : Restrictions) (v : Variant) :
  level_lt (observedLevel s) (lowBufferThreshold s) = false ->
  level_gt (observedLevel s) (highBufferThreshold s) = true ->
  currentQualityIndex s < catalogSize s - 1 ->
  Array_get (Array_sort byBandwidth (catalog s)) (currentQualityIndex s + 1)
  = Some v ->
  config_ s = Some c -> restrictions c = Some r ->
  config_ (exec startMonitoringBuffer s) = Some (capped c (bandwidth v)).
Proof.
  unfold observedLevel, capped, catalogSize. intros Hlow Hhigh Hmax Hv Hc Hr.
  apply Z.ltb_lt in Hmax.
  unfold_methods. unfold catalogSize, catalog in *. cbn.
  split_cases; congruence.
Qed.

(** The second manager does the same and also sets
    [restrictToScreenSize]. *)
Lemma second_startMonitoringBuffer_up (s : State) (c : Config)
    (r : Restrictions) (v : Variant) :
  level_lt (observedLevel s) (lowBufferThreshold s) = false ->
  level_gt (observedLevel s) (highBufferThreshold s) = true ->
  currentQualityIndex s < catalogSize s - 1 ->
  Array_get (Array_sort byBandwidth (catalog s)) (currentQualityIndex s + 1)
  = Some v ->
  config_ s = Some c -> restrictions c = Some r ->
  let s' := exec Second.startMonitoringBuffer s in
  currentQualityIndex s' = currentQualityIndex s + 1 /\
  config_ s'
  = Some (mkConfig (safeMarginSwitch c) (clearBufferSwitch c)
            (Some (mkRestrictions (Some (bandwidth v)))) true).
Proof.
  unfold observedLevel, catalogSize. intros Hlow Hhigh Hmax Hv Hc Hr.
  apply Z.ltb_lt in Hmax.
  unfold_methods. unfold catalogSize, catalog in *. cbn.
  split_cases; split; congruence.
Qed.

(** C3, at the input where the first manager departs from it.  In the demo
    session (catalog [100, 500, 1000], index 0, [restrictToScreenSize]
    false) a sample of 0.9 is above [highBufferThreshold]: the first
    manager moves to index 1 and caps the bandwidth at 500 but leaves
    [restrictToScreenSize] false, where the second manager sets it. *)
Theorem first_manager_keeps_screen_flag_on_step_up :
  let s := demoSession (steady (9 # 10)) in
  let s' := exec startMonitoringBuffer s in
  level_gt (observedLevel s) (highBufferThreshold s) = true /\
  currentQualityIndex s = 0 /\ catalogSize s - 1 = 2 /\
  currentQualityIndex s' = 1 /\
  config_ s' = Some (mkConfig false false (Some (mkRestrictions (Some 500))) false) /\
  config_ (exec Second.startMonitoringBuffer s)
  = Some (mkConfig false false (Some (mkRestrictions (Some 500))) true).
Proof. vm_compute. repeat split; reflexivity. Qed.

(** ** C4: [stop] *)

Lemma stop_catalog (s : State) : catalog (exec stop s) = [].
Proof. unfold catalog, exec, stop; cbn. now rewrite lookup_insert_eq. Qed.

Lemma stop_idempotent (s : State) :
  managerView (exec stop (exec stop s)) = managerView (exec stop s).
Proof.
  unfold managerView. rewrite !stop_catalog. reflexivity.
Qed.

Lemma monitorTick_frame (t : Z) (s : State) :
  switchQualityCallback (exec (monitorTick t) s) = switchQualityCallback s /\
  switchCalls (exec (monitorTick t) s) = switchCalls s /\
  intervals (exec (monitorTick t) s) = intervals s.
Proof.
  unfold exec, monitorTick, bind, gets, modify, throw. cbn.
  destruct (getLatencyStatistics _); auto.
Qed.

(** While no callback is registered, no call but [init] registers one, and
    none reaches the host's switch callback. *)
Lemma perform_unregistered (c : Call) (s : State) :
  isInit c = false ->
  switchQualityCallback s = None ->
  switchQualityCallback (perform c s) = None /\
  switchCalls (perform c s) = switchCalls s.
Proof.
  intros Hc Hcb. destruct c; try discriminate; try (split; [exact Hcb|reflexivity]).
  - split; reflexivity.
  - cbn. now rewrite startMonitoringBuffer_callback,
      startMonitoringBuffer_unregistered.
  - cbn. unfold exec. rewrite segmentDownloaded_unfold.
    pose proof (startMonitoringBuffer_callback s) as H1.
    pose proof (startMonitoringBuffer_unregistered s Hcb) as H2.
    unfold exec in H1, H2.
    destruct request as [request|];
      (destruct allowSwitch; [|split; [exact Hcb|reflexivity]]);
      destruct (startMonitoringBuffer s) as [[[]|e] s']; cbn in *;
      split; congruence.
  - cbn. unfold tick. destruct (intervals s); [split; [exact Hcb|reflexivity]|].
    destruct (monitorTick_frame currentTime s) as (H1 & H2 & _).
    split; congruence.
Qed.

Lemma run_unregistered (calls : list Call) (s : State) :
  Forall (fun c => isInit c = false) calls ->
  switchQualityCallback s = None ->
  switchQualityCallback (run calls s) = None /\
  switchCalls (run calls s) = switchCalls s.
Proof.
  intros Hcalls. revert s.
  induction Hcalls as [|c calls Hc _ IH]; intros s Hcb; [split; [exact Hcb|reflexivity]|].
  destruct (perform_unregistered c s Hc Hcb) as [Hcb' Hlog].
  destruct (IH (perform c s) Hcb') as [Hcb'' Hlog'].
  unfold run in *. cbn. split; congruence.
Qed.

(** C4 (as amended).  [stop] always returns; it clears the switch callback
    and replaces the catalog by a fresh empty array, keeps the telemetry,
    and a second [stop] changes nothing more.  After it no sequence of
    calls that does not go through [init] again reaches the switch
    callback.  The periodic monitor is not part of what [stop] tears
    down: the timers registered with [setInterval] are as before, and a
    tick that was possible before [stop] still runs the handler. *)
Theorem stop_silences_switching_not_the_timer (s : State) (calls : list Call) :
  let stopped := exec stop s in
  outcome stop s = Returns tt /\
  switchQualityCallback stopped = None /\
  catalog stopped = [] /\
  downloadedSegments stopped = downloadedSegments s /\
  (outcome stop stopped = Returns tt /\
   managerView (exec stop stopped) = managerView stopped) /\
  (Forall (fun c => isInit c = false) calls ->
   switchCalls (run calls stopped) = switchCalls s) /\
  intervals stopped = intervals s /\
  (intervals s <> [] ->
   forall t, tick t stopped = exec (monitorTick t) stopped).
Proof.
  intros stopped. subst stopped.
  split; [reflexivity|]. split; [reflexivity|].
  split; [apply stop_catalog|]. split; [reflexivity|].
  split; [split; [reflexivity | apply stop_idempotent]|].
  split; [|split; [reflexivity|]].
  - intros Hcalls.
    destruct (run_unregistered calls (exec stop s) Hcalls eq_refl) as [_ Hlog].
    exact Hlog.
  - intros Hlive t. unfold tick.
    change (intervals (exec stop s)) with (intervals s).
    destruct (intervals s); [contradiction | reflexivity].
Qed.

Lemma stop_silences_switching_not_the_timer_witness :
  let s := demoSession (steady (9 # 10)) in
  let calls := [CSetVariants 1%positive; CStartMonitoringBuffer; CTick 2000] in
  Forall (fun c => isInit c = false) calls /\
  intervals s <> [] /\
  switchCalls (run calls (exec stop s)) = switchCalls s /\
  forall t, tick t (exec stop s) = exec (monitorTick t) (exec stop s).
Proof.
  intros s calls.
  assert (Hcalls : Forall (fun c => isInit c = false) calls)
    by (repeat constructor).
  assert (Hlive : intervals s <> []) by (vm_compute; discriminate).
  destruct (stop_silences_switching_not_the_timer s calls)
    as (_ & _ & _ & _ & _ & Hquiet & _ & Htick).
  split; [exact Hcalls|]. split; [exact Hlive|].
  split; [exact (Hquiet Hcalls) | exact (Htick Hlive)].
Defined.

(** C4, as stated, fails: after [stop] has returned, the timer started by
    the constructor is still registered and its next tick runs the monitor
    handler, which recounts the recent segments and writes the average
    latency to the page. *)
Lemma monitor_ticks_after_stop :
  intervals stoppedSession = [1000] /\
  lastDownloadedSegmentsCount stoppedSession = None /\
  displayed stoppedSession = [] /\
  lastDownloadedSegmentsCount (tick 2000 stoppedSession) = Some 1%nat /\
  displayed (tick 2000 stoppedSession) = [15%float] /\
  tick 2000 stoppedSession <> stoppedSession.
Proof.
  vm_compute. repeat split; try reflexivity. intros H. discriminate H.
Qed.

(** ** C5: the catalog and its ordering *)

Lemma StronglySorted_lookup_le (arr : list Variant) (i j : nat) (a b : Variant) :
  StronglySorted bandwidthLe arr ->
  arr !! i = Some a -> arr !! j = Some b -> (i <= j)%nat ->
  bandwidth a <= bandwidth b.
Proof.
  intros Hsorted. revert i j a b.
  induction Hsorted as [|x rest Hrest IH Hall]; intros i j a b Hi Hj Hij.
  - discriminate.
  - destruct i as [|i], j as [|j]; cbn in Hi, Hj.
    + injection Hi as <-. injection Hj as <-. lia.
    + injection Hi as <-. rewrite Forall_forall in Hall.
      apply Hall. eapply list_elem_of_lookup_2, Hj.
    + lia.
    + apply (IH i j a b Hi Hj). lia.
Qed.

(** In an array in ascending order rank 0 holds the least bandwidth and
    the last rank the greatest. *)
Lemma sorted_ranks_extreme (arr : list Variant) (lowest highest v : Variant) :
  StronglySorted bandwidthLe arr ->
  Array_get arr 0 = Some lowest ->
  Array_get arr (Z.of_nat (length arr) - 1) = Some highest ->
  In v arr ->
  bandwidth lowest <= bandwidth v <= bandwidth highest.
Proof.
  intros Hsorted Hlo Hhi Hin.
  apply list_elem_of_In, list_elem_of_lookup_1 in Hin. destruct Hin as [k Hk].
  pose proof (lookup_lt_Some _ _ _ Hk) as Hklt.
  unfold Array_get in Hlo, Hhi. cbn in Hlo.
  destruct (Z.ltb_spec (Z.of_nat (length arr) - 1) 0); [discriminate|].
  split.
  - apply (StronglySorted_lookup_le arr 0 k); auto. lia.
  - apply (StronglySorted_lookup_le arr k (Z.to_nat (Z.of_nat (length arr) - 1)));
      auto. lia.
Qed.

(** C5 (as amended).  [setVariants] replaces the catalog wholesale: it
    stores the reference it is given and touches no array.  Every lookup
    by rank goes through [getVariantByQualityIndex], which first sorts
    that very array where it lives, so that the array the host passed in
    is reordered too: it then holds the same variants in ascending order
    of bandwidth, every other array being untouched, and the lookup reads
    the sorted array.  Rank 0 holds the lowest bandwidth and rank
    [length - 1] the highest. *)
Theorem catalog_sorted_in_place_before_lookup (s : State) (l : loc)
    (given : list Variant) (i : Z) :
  arrays s !! l = Some given ->
  let registered := exec (setVariants l) s in
  let looked := exec (getVariantByQualityIndex i) registered in
  (videoVariants registered = l /\ arrays registered = arrays s /\
   catalog registered = given) /\
  (videoVariants looked = l /\
   arrays looked = <[l := Array_sort byBandwidth given]> (arrays s) /\
   catalog looked = Array_sort byBandwidth given) /\
  (Permutation (catalog looked) given /\
   StronglySorted bandwidthLe (catalog looked)) /\
  outcome (getVariantByQualityIndex i) registered
  = Returns (Array_get (catalog looked) i) /\
  (forall lowest highest v : Variant,
      Array_get (catalog looked) 0 = Some lowest ->
      Array_get (catalog looked) (catalogSize looked - 1) = Some highest ->
      In v given ->
      bandwidth lowest <= bandwidth v <= bandwidth highest).
Proof.
  intros Hgiven registered looked.
  assert (Hreg : catalog registered = given).
  { unfold catalog, registered, exec, setVariants, modify. cbn.
    now rewrite Hgiven. }
  assert (Hlooked : catalog looked = Array_sort byBandwidth given).
  { unfold looked, exec. now rewrite getVariant_catalog, Hreg. }
  split; [repeat split; exact Hreg|].
  split.
  { split; [reflexivity|]. split; [|exact Hlooked].
    unfold looked, registered, exec, getVariantByQualityIndex, setVariants,
      modify, catalog. cbn. now rewrite Hgiven. }
  rewrite Hlooked.
  split; [split; [apply Array_sort_perm | apply Array_sort_strongly_sorted]|].
  split.
  { unfold outcome. rewrite getVariant_outcome. now rewrite Hreg. }
  intros lowest highest v Hlo Hhi Hin.
  apply (sorted_ranks_extreme (Array_sort byBandwidth given)); auto.
  - apply Array_sort_strongly_sorted.
  - unfold catalogSize in Hhi. now rewrite Hlooked in Hhi.
  - eapply Permutation_in; [symmetry; apply Array_sort_perm | exact Hin].
Qed.

Lemma catalog_sorted_in_place_before_lookup_witness :
  let s := snd (construct (steady (5 # 10)) demoStore) in
  arrays s !! 1%positive = Some [v1000; v100; v500] /\
  outcome (getVariantByQualityIndex 2) (exec (setVariants 1%positive) s)
  = Returns
      (Array_get
         (catalog (exec (getVariantByQualityIndex 2) (exec (setVariants 1%positive) s)))
         2).
Proof.
  intros s.
  assert (Hgiven : arrays s !! 1%positive = Some [v1000; v100; v500])
    by (vm_compute; reflexivity).
  split; [exact Hgiven|].
  exact (proj1 (proj2 (proj2 (proj2
           (catalog_sorted_in_place_before_lookup s 1%positive _ 2 Hgiven))))).
Defined.

(** C5, as stated, fails: the array the host registered as
    [1000, 100, 500] is itself reordered by the first lookup. *)
Lemma lookup_reorders_registered_array :
  let s := bareSession in
  map bandwidth <$> (arrays s !! 1%positive) = Some [1000; 100; 500] /\
  map bandwidth <$> (arrays (exec (getVariantByQualityIndex 0) s) !! 1%positive)
  = Some [100; 500; 1000] /\
  arrays (exec (getVariantByQualityIndex 0) s) !! 1%positive
  <> arrays s !! 1%positive.
Proof. vm_compute. repeat split; try reflexivity. intros H. discriminate H. Qed.

(** ** C6: evaluations over an empty catalog *)

(** Over an empty catalog nothing is passed to the switch callback. *)
Lemma empty_catalog_never_switches (s : State) :
  catalog s = [] ->
  switchCalls (exec startMonitoringBuffer s) = switchCalls s.
Proof.
  intros Hempty. unfold_methods. unfold catalog in *. cbn.
  split_cases; read_catalog Hempty; congruence.
Qed.

(** With the index at 0, or with a level that is not low, the evaluation
    of an empty catalog selects nothing, moves nothing and returns. *)
Lemma empty_catalog_no_selection (s : State) :
  catalog s = [] ->
  0 <= currentQualityIndex s ->
  currentQualityIndex s = 0
  \/ level_lt (observedLevel s) (lowBufferThreshold s) = false ->
  outcome chooseVariant (sampled s) = Returns None /\
  outcome startMonitoringBuffer s = Returns tt /\
  currentQualityIndex (exec startMonitoringBuffer s) = currentQualityIndex s.
Proof.
  intros Hempty Hnonneg Hcase.
  unfold sampled, observedLevel in *. unfold_methods.
  unfold catalogSize, catalog in *. cbn.
  split_cases; read_catalog Hempty; decide_tests;
    try (destruct Hcase; (congruence || lia));
    try (cbn in *; lia);
    repeat split; congruence.
Qed.

(** C6, at the input where the code departs from it: the catalog is empty,
    the index is 1 and the level 0.1 is low, so [decreaseQuality] moves the
    index to 0 and then reads [.bandwidth] of [undefined]: [chooseVariant]
    and with it [startMonitoringBuffer] throw a [TypeError] instead of
    returning no selection.  The switch callback is not invoked. *)
Theorem empty_catalog_evaluation_throws :
  catalog stoppedAtRankOne = [] /\
  currentQualityIndex stoppedAtRankOne = 1 /\
  observedLevel stoppedAtRankOne = LTenths 1 /\
  outcome chooseVariant (sampled stoppedAtRankOne) = Throws TypeError /\
  outcome startMonitoringBuffer stoppedAtRankOne = Throws TypeError /\
  currentQualityIndex (exec startMonitoringBuffer stoppedAtRankOne) = 0 /\
  switchCalls (exec startMonitoringBuffer stoppedAtRankOne)
  = switchCalls stoppedAtRankOne.
Proof. vm_compute. repeat split; reflexivity. Qed.

(** ** C7: jitter *)

(** *** Integers and [Math.round] in binary64 *)








(** *** The sums of [calculateJitter] *)





(** The example of the specification: for the delays 100, 200 and 300 the
    deviation is 100 and the jitter 100 / 1000; one record alone gives
    0. *)
Example jitter_of_three_delays :
  map delay (downloadedSegments threeDownloads) = [100; 200; 300] /\
  sampleDeviation64 (map Number_ofZ [100; 200; 300]) = 100%float /\
  Math_round 100 = 100%float /\
  calculateJitter threeDownloads = (100 / 1000)%float /\
  calculateJitter stoppedSession = 0%float.
Proof. vm_compute. repeat split; reflexivity. Qed.

(** The rounding is that of the computed deviation.  For these nine
    delays the deviation is 7/2 in exact arithmetic ([n (n - 1)] times its
    square is [n] times the sum of the squares less the square of the
    sum), half way between 3 and 4.  Their mean is no double, the
    computed deviation falls just below 7/2, and the jitter is
    3 / 1000. *)
Example jitter_of_nine_delays :
  map delay (downloadedSegments (logOfDelays nineDelays)) = nineDelays /\
  4 * (9 * foldr Z.add 0 (map (fun d => d * d) nineDelays)
       - foldr Z.add 0 nineDelays * foldr Z.add 0 nineDelays)
  = 9 * 8 * (7 * 7) /\
  (sampleDeviation64 (map Number_ofZ nineDelays) <? 7 / 2)%float = true /\
  Math_round (sampleDeviation64 (map Number_ofZ nineDelays)) = 3%float /\
  Math_round (7 / 2) = 4%float /\
  calculateJitter (logOfDelays nineDelays) = (3 / 1000)%float.
Proof. vm_compute. repeat split; reflexivity. Qed.

(** [Math.round] on the values [roundHalfUp] does not see: a tie goes up
    on either side of zero, the double just below a half goes down, and
    what rounds to zero keeps its sign. *)
Example Math_round_on_ties :
  Math_round (5 / 2) = 3%float /\
  Math_round (- (5 / 2)) = (- 2)%float /\
  Math_round (PrimFloat.next_down (1 / 2)) = 0%float /\
  Math_round (- (1 / 4)) = (- 0)%float /\
  Math_round PrimFloat.infinity = PrimFloat.infinity.
Proof. vm_compute. repeat split; reflexivity. Qed.

(** ** C8: [segmentDownloaded] *)

(** C8 (as amended).  [segmentDownloaded] calls the host's buffer-fullness
    callback, that is, runs [startMonitoringBuffer], exactly once when
    [allowSwitch] is true and not at all when it is false, and the
    evaluation comes before the recording.  When the evaluation throws,
    the call throws the same exception and stops in the state the
    evaluation left, with no record appended.  When the evaluation
    returns or is not run, a call without a request throws a [TypeError]
    in that state, again with no record appended, and a call with a
    request returns having appended exactly one record, the one built
    from its arguments, to that state.  The evaluation returns whenever
    the manager is configured, has a callback and holds an index of its
    catalog. *)
Theorem segmentDownloaded_evaluates_then_records (d n : Z) (a : bool)
    (r : option Request) (t1 t2 : Z) (s : State) :
  let call := segmentDownloaded d n a r t1 t2 in
  let evaluation :=
    if a then outcome startMonitoringBuffer s else Returns tt in
  let evaluated := if a then exec startMonitoringBuffer s else s in
  fullnessCalls (exec call s)
  = (fullnessCalls s + (if a then 1 else 0))%nat /\
  (forall e : JsError,
     evaluation = Throws e ->
     outcome call s = Throws e /\ exec call s = evaluated /\
     downloadedSegments (exec call s) = downloadedSegments s) /\
  (evaluation = Returns tt ->
   match r with
   | None =>
       outcome call s = Throws TypeError /\ exec call s = evaluated /\
       downloadedSegments (exec call s) = downloadedSegments s
   | Some request =>
       let record := segmentRecord d request t1 t2 in
       outcome call s = Returns tt /\
       exec call s = recordSegment record evaluated /\
       downloadedSegments (exec call s) = downloadedSegments s ++ [record]
   end) /\
  (a = false \/ wellConfigured s -> evaluation = Returns tt).
Proof.
  intros call evaluation evaluated. subst call evaluation evaluated.
  unfold exec, outcome. rewrite !segmentDownloaded_unfold.
  pose proof (startMonitoringBuffer_fullnessCalls s) as Hcalls.
  pose proof (startMonitoringBuffer_downloadedSegments s) as Hsegs.
  pose proof (startMonitoringBuffer_returns s) as Hret.
  unfold exec, outcome in *.
  destruct a.
  - destruct (startMonitoringBuffer s) as [[[]|e] s']; cbn in *.
    + split; [destruct r; cbn; lia|].
      split; [discriminate|]. split; [|reflexivity].
      intros _. destruct r as [request|]; cbn.
      * split; [reflexivity|]. split; [reflexivity|]. now rewrite Hsegs.
      * auto.
    + split; [destruct r; cbn; lia|]. split.
      * intros e' [= <-]. destruct r; cbn; auto.
      * split; [discriminate|].
        intros [Hfalse|Hok]; [discriminate | now apply Hret].
  - split; [destruct r; cbn; lia|]. split; [discriminate|].
    split; [|reflexivity].
    intros _. destruct r as [request|]; cbn; auto.
Qed.

Lemma segmentDownloaded_evaluates_then_records_witness :
  let s := demoSession (steady (9 # 10)) in
  let call := segmentDownloaded 10 4096 true (Some demoRequest) 1100 1101 in
  wellConfigured s /\
  outcome call s = Returns tt /\
  exec call s
  = recordSegment (segmentRecord 10 demoRequest 1100 1101)
                  (exec startMonitoringBuffer s) /\
  downloadedSegments (exec call s)
  = downloadedSegments s ++ [segmentRecord 10 demoRequest 1100 1101].
Proof.
  intros s call.
  assert (Hok : wellConfigured s).
  { split; [|split].
    - exists demoConfig, (mkRestrictions None). split; vm_compute; reflexivity.
    - exists 7%nat. vm_compute; reflexivity.
    - vm_compute. split; [discriminate | reflexivity]. }
  destruct (segmentDownloaded_evaluates_then_records
              10 4096 true (Some demoRequest) 1100 1101 s)
    as (_ & _ & Hrecord & Hreturns).
  split; [exact Hok|]. exact (Hrecord (Hreturns (or_intror Hok))).
Defined.

(** C8, as stated, fails: variants are registered but no callback is, so
    the evaluation that [allowSwitch] triggers selects a variant, throws on
    [this.switchQualityCallback(...)], and the record is never pushed. *)
Lemma segmentDownloaded_throws_before_recording :
  let s := bareSession in
  let call := segmentDownloaded 10 4096 true (Some demoRequest) 1100 1101 in
  outcome call s = Throws TypeError /\
  downloadedSegments (exec call s) = downloadedSegments s /\
  fullnessCalls (exec call s) = S (fullnessCalls s).
Proof. vm_compute. repeat split; reflexivity. Qed.

(** A call that leaves the request out reads [timeToFirstByte] of
    [undefined]: it throws without a record, once the evaluation it was
    allowed has run and switched. *)
Example segmentDownloaded_without_request :
  let s := demoSession (steady (9 # 10)) in
  outcome (segmentDownloaded 10 4096 false None 1100 1101) s
  = Throws TypeError /\
  exec (segmentDownloaded 10 4096 false None 1100 1101) s = s /\
  outcome (segmentDownloaded 10 4096 true None 1100 1101) s
  = Throws TypeError /\
  exec (segmentDownloaded 10 4096 true None 1100 1101) s
  = exec startMonitoringBuffer s /\
  currentQualityIndex (exec (segmentDownloaded 10 4096 true None 1100 1101) s)
  = 1 /\
  downloadedSegments (exec (segmentDownloaded 10 4096 true None 1100 1101) s)
  = [].
Proof. vm_compute. repeat split; reflexivity. Qed.

(** ** C9: delay between the tracks *)

Lemma lastSeen_snoc (type : string) (records : list SegmentRecord)
    (item : SegmentRecord) :
  lastSeen type (records ++ [item])
  = if String.eqb (contentType item) type then Some (timestamp item)
    else lastSeen type records.
Proof.
  unfold lastSeen. rewrite List.filter_app. cbn [List.filter].
  destruct (String.eqb (contentType item) type).
  - rewrite map_app. cbn [map]. apply last_snoc.
  - now rewrite app_nil_r.
Qed.

Lemma calculateDelay_tracks (records : list SegmentRecord)
    (videoTimestamp audioTimestamp : option Z) :
  let step (tracked : option Z * option Z) (item : SegmentRecord) :=
    if String.eqb (contentType item) "video" then
      (Some (timestamp item), snd tracked)
    else if String.eqb (contentType item) "audio" then
      (fst tracked, Some (timestamp item))
    else tracked in
  fold_left step records (videoTimestamp, audioTimestamp)
  = (trackedFor "video" records videoTimestamp,
     trackedFor "audio" records audioTimestamp).
Proof.
  intros step. induction records as [|item records IH] using rev_ind.
  - reflexivity.
  - rewrite fold_left_app. cbn [fold_left]. rewrite IH.
    unfold trackedFor. rewrite !lastSeen_snoc. unfold step. cbn [fst snd].
    destruct (String.eqb_spec (contentType item) "video") as [Hv|Hv].
    + rewrite Hv. reflexivity.
    + destruct (String.eqb (contentType item) "audio"); reflexivity.
Qed.

(** C9 (as amended).  [calculateDelay] scans the records in order and
    tracks, for "video" and for "audio", the timestamp of the last record
    of that type, a later record overwriting an earlier one; for a type
    with no record it is left with the argument the caller passed for it.
    It returns the absolute difference of the two.  With both types on
    record that is the distance between their last timestamps, whatever
    the arguments; called without arguments, as the monitor calls it, it
    returns NaN as soon as one of the types has no record. *)
Theorem calculateDelay_last_seen (s : State)
    (videoTimestamp audioTimestamp : option Z) :
  let records := downloadedSegments s in
  calculateDelay videoTimestamp audioTimestamp s
  = absDifference (trackedFor "video" records videoTimestamp)
                  (trackedFor "audio" records audioTimestamp) /\
  (forall tv ta : Z,
      lastSeen "video" records = Some tv ->
      lastSeen "audio" records = Some ta ->
      calculateDelay videoTimestamp audioTimestamp s = Num (Z.abs (tv - ta))) /\
  (lastSeen "video" records = None \/ lastSeen "audio" records = None ->
   calculateDelay None None s = NaN).
Proof.
  intros records.
  assert (Hscan : forall v a,
             calculateDelay v a s
             = absDifference (trackedFor "video" records v)
                             (trackedFor "audio" records a)).
  { intros v a. unfold calculateDelay. fold records.
    now rewrite calculateDelay_tracks. }
  split; [apply Hscan|]. split.
  - intros tv ta Hv Ha. rewrite Hscan. unfold trackedFor.
    now rewrite Hv, Ha.
  - intros Hmissing. rewrite Hscan. unfold trackedFor.
    destruct Hmissing as [H|H]; rewrite H; cbn;
      [reflexivity | now destruct (lastSeen "video" records)].
Qed.

Lemma calculateDelay_last_seen_witness :
  lastSeen "video" (downloadedSegments threeDownloads) = Some 1301 /\
  lastSeen "audio" (downloadedSegments threeDownloads) = Some 1201 /\
  calculateDelay None None threeDownloads = Num (Z.abs (1301 - 1201)).
Proof.
  assert (Hv : lastSeen "video" (downloadedSegments threeDownloads) = Some 1301)
    by (vm_compute; reflexivity).
  assert (Ha : lastSeen "audio" (downloadedSegments threeDownloads) = Some 1201)
    by (vm_compute; reflexivity).
  split; [exact Hv|]. split; [exact Ha|].
  exact (proj1 (proj2 (calculateDelay_last_seen threeDownloads None None))
           1301 1201 Hv Ha).
Defined.

(** C9, as stated, fails: with a video record and no audio record the
    call the monitor makes returns NaN, which is no number at all, let
    alone a large one. *)
Lemma calculateDelay_single_track_is_NaN :
  map contentType (downloadedSegments stoppedSession) = ["video"%string] /\
  calculateDelay None None stoppedSession = NaN /\
  ~ (exists z : Z, calculateDelay None None stoppedSession = Num z).
Proof.
  split; [vm_compute; reflexivity|].
  assert (H : calculateDelay None None stoppedSession = NaN)
    by (vm_compute; reflexivity).
  split; [exact H|]. intros [z Hz]. rewrite H in Hz. discriminate Hz.
Qed.

(** ** C10: [enable] and [disable] *)

Lemma flagBlind_bind {A B} (m : M A) (k : A -> M B) :
  flagBlind m -> (forall a, flagBlind (k a)) -> flagBlind (bind m k).
Proof.
  intros Hm Hk b s. unfold bind. rewrite Hm.
  destruct (m s) as [[a|e] s']; cbn; [apply Hk | reflexivity].
Qed.

Lemma flagBlind_ret {A} (a : A) : flagBlind (ret a).
Proof. intros b s. reflexivity. Qed.

Lemma flagBlind_getVariant (i : Z) : flagBlind (getVariantByQualityIndex i).
Proof. intros b s. reflexivity. Qed.

Lemma flagBlind_chooseVariant : flagBlind chooseVariant.
Proof.
  intros b s. unfold_methods. unfold catalogSize, catalog. cbn.
  split_cases; reflexivity.
Qed.

Lemma flagBlind_startMonitoringBuffer : flagBlind startMonitoringBuffer.
Proof.
  intros b s. unfold_methods. unfold catalogSize, catalog. cbn.
  split_cases; reflexivity.
Qed.

Lemma flagBlind_segmentDownloaded (d n : Z) (a : bool)
    (r : option Request) (t1 t2 : Z) :
  flagBlind (segmentDownloaded d n a r t1 t2).
Proof.
  unfold segmentDownloaded. apply flagBlind_bind.
  - destruct a; [apply flagBlind_startMonitoringBuffer | apply flagBlind_ret].
  - intros _ b s. destruct r; reflexivity.
Qed.

(** What a flag-blind computation does after [enable] and after [disable]
    differs in the flag alone. *)
Lemma flagBlind_enable_disable {A} (m : M A) (s : State) :
  flagBlind m ->
  outcome m (exec enable s) = outcome m (exec disable s) /\
  exec m (exec enable s) = set_enabled_ true (exec m s) /\
  exec m (exec disable s) = set_enabled_ false (exec m s).
Proof.
  intros Hm. unfold outcome, exec, enable, disable, modify. cbn.
  rewrite !Hm. auto.
Qed.

(** C10.  [enable] and [disable] write [enabled_] and nothing else, and
    [chooseVariant], [startMonitoringBuffer] and [segmentDownloaded]
    neither read nor write it: run after [enable] or after [disable] they
    return or throw alike and leave states that differ in that flag
    alone, so that quality switching and telemetry recording go on in a
    disabled manager. *)
Theorem enable_disable_change_nothing_observed (s : State) (d n : Z)
    (a : bool) (r : option Request) (t1 t2 : Z) :
  let same {A} (m : M A) :=
    outcome m (exec enable s) = outcome m (exec disable s) /\
    exec m (exec enable s) = set_enabled_ true (exec m s) /\
    exec m (exec disable s) = set_enabled_ false (exec m s) in
  exec enable s = set_enabled_ true s /\
  exec disable s = set_enabled_ false s /\
  same chooseVariant /\
  same startMonitoringBuffer /\
  same (segmentDownloaded d n a r t1 t2).
Proof.
  cbv zeta. split; [reflexivity|]. split; [reflexivity|].
  split; [|split]; apply flagBlind_enable_disable.
  - apply flagBlind_chooseVariant.
  - apply flagBlind_startMonitoringBuffer.
  - apply flagBlind_segmentDownloaded.
Qed.

(** A disabled manager still switches and still records. *)
Example disabled_manager_still_switches :
  let s := exec disable (demoSession (steady (9 # 10))) in
  let s' :=
    exec (segmentDownloaded 10 4096 true (Some demoRequest) 1100 1101) s in
  enabled_ s = false /\
  currentQualityIndex s = 0 /\ currentQualityIndex s' = 1 /\
  map (fun c => bandwidth (chosen c)) (switchCalls s') = [500] /\
  length (downloadedSegments s') = 1%nat.
Proof. vm_compute. repeat split; reflexivity. Qed.

(** * Further properties of the code *)

(** ** Construction *)

(** The state the constructor leaves. *)
Lemma construct_state (cb : nat -> Sample)
    (store : gmap loc (list Variant)) :
  let s := snd (construct cb store) in
  fst (construct cb store) = Returns tt /\
  currentQualityIndex s = 0 /\ catalog s = [] /\
  switchQualityCallback s = None /\ config_ s = None /\
  intervals s = [1000] /\
  fullnessCalls s = 1%nat /\ bufferLevel s = toFixed1 (cb 0%nat) /\
  switchCalls s = [] /\ downloadedSegments s = [] /\
  getBufferFullness s = cb /\
  lowBufferThreshold s = 3 # 10 /\ highBufferThreshold s = 8 # 10 /\
  forall l : loc, is_Some (store !! l) -> arrays s !! l = store !! l.
Proof.
  intros s. subst s. unfold construct, initialFields, startMonitoring.
  assert (Hget : forall i, Array_get (@nil Variant) i = None)
    by (intros i; unfold Array_get; now destruct (i <? 0)).
  assert (Hstore : forall (arr : list Variant) (l : loc),
             is_Some (store !! l) ->
             <[fresh (dom store) := arr]> (<[fresh (dom store) := []]> store) !! l
             = store !! l).
  { intros arr l Hl. apply elem_of_dom in Hl.
    assert (fresh (dom store) <> l)
      by (intros <-; exact (is_fresh (dom store) Hl)).
    now rewrite !lookup_insert_ne. }
  unfold_methods. unfold catalogSize, catalog. cbn.
  split_cases; read_catalog Hget; decide_tests;
    rewrite ?lookup_insert_eq in *; cbn in *; try lia;
    try match goal with
        | H : [] !! _ = Some _ |- _ => rewrite lookup_nil in H; discriminate H
        end;
    repeat split; auto; try congruence.
Qed.

(** X1.  The constructor (the registration of the response filter with
    the player aside) returns for every host callback and every array
    store.  The manager it leaves has index 0, an empty catalog of its
    own, no callback and no configuration, the thresholds 0.3 and 0.8,
    one timer of 1000 ms, and has read one sample, which is its level;
    nothing was switched or recorded and every array of the host is as it
    was. *)
Theorem construct_starts_idle (cb : nat -> Sample)
    (store : gmap loc (list Variant)) :
  let s := snd (construct cb store) in
  fst (construct cb store) = Returns tt /\
  currentQualityIndex s = 0 /\ catalog s = [] /\
  switchQualityCallback s = None /\ config_ s = None /\
  intervals s = [1000] /\
  fullnessCalls s = 1%nat /\ bufferLevel s = toFixed1 (cb 0%nat) /\
  switchCalls s = [] /\ downloadedSegments s = [] /\
  getBufferFullness s = cb /\
  lowBufferThreshold s = 3 # 10 /\ highBufferThreshold s = 8 # 10 /\
  forall l : loc, is_Some (store !! l) -> arrays s !! l = store !! l.
Proof. exact (construct_state cb store). Qed.

Lemma construct_starts_idle_witness :
  arrays (snd (construct (steady (5 # 10)) demoStore)) !! 1%positive
  = Some [v1000; v100; v500].
Proof.
  destruct (construct_starts_idle (steady (5 # 10)) demoStore)
    as (_ & _ & _ & _ & _ & _ & _ & _ & _ & _ & _ & _ & _ & Hstore).
  rewrite (Hstore 1%positive); [reflexivity|].
  exists [v1000; v100; v500]. reflexivity.
Defined.

(** ** The marks on the raw sample *)

Lemma Qltb_lt (x y : Q) : Qltb x y = true <-> (x < y)%Q.
Proof.
  unfold Qltb. rewrite negb_true_iff. split.
  - intros Hle. apply Qnot_le_lt. intros H.
    apply Qle_bool_iff in H. congruence.
  - intros Hlt. destruct (Qle_bool y x) eqn:H; [|reflexivity].
    apply Qle_bool_iff in H. lra.
Qed.

Lemma tenths_lt (k n : Z) : ((k # 10) < (n # 10))%Q <-> k < n.
Proof. unfold Qlt. cbn. lia. Qed.

Lemma Qfloor_lt_iff (x : Q) (n : Z) : Qfloor x < n <-> (x < inject_Z n)%Q.
Proof.
  pose proof (Qfloor_le x) as Hlo. pose proof (Qlt_floor x) as Hhi. split.
  - intros Hlt. assert (Hle : Qfloor x + 1 <= n) by lia.
    rewrite Zle_Qle in Hle. lra.
  - intros Hlt. rewrite Zlt_Qlt. lra.
Qed.

Lemma roundHalfUp_nonneg (x : Q) : (0 <= x)%Q -> 0 <= roundHalfUp x.
Proof.
  intros Hx. unfold roundHalfUp.
  change 0 with (Qfloor 0). apply Qfloor_resp_le. lra.
Qed.

Lemma huge_sample (q : Q) :
  Qle_bool (inject_Z (10 ^ 21)) (Qabs q) = true ->
  (q <= - (1))%Q \/ (1 <= q)%Q.
Proof.
  intros Hbig. apply Qle_bool_iff in Hbig.
  assert (Hone : (1 <= inject_Z (10 ^ 21))%Q) by (vm_compute; discriminate).
  revert Hbig. apply Qabs_case; intros; [right | left]; lra.
Qed.

(** After [toFixed(1)] a finite sample is below 0.3 exactly when it is
    below 0.25 ... *)
Lemma rounded_sample_low (q : Q) :
  level_lt (toFixed1 (SFin q)) (3 # 10) = Qltb q (1 # 4).
Proof.
  apply Bool.eq_true_iff_eq. rewrite (Qltb_lt q). unfold toFixed1.
  destruct (Qle_bool _ (Qabs q)) eqn:Hbig.
  - destruct (huge_sample q Hbig); cbn [level_lt]; rewrite Qltb_lt;
      split; intros; lra.
  - destruct (Qltb q 0) eqn:Hneg; cbn [level_lt]; rewrite Qltb_lt, tenths_lt.
    + apply Qltb_lt in Hneg.
      assert (Hk : 0 <= roundHalfUp (inject_Z 10 * - q))
        by (apply roundHalfUp_nonneg; change (inject_Z 10) with 10%Q; lra).
      split; intros; [lra | lia].
    + assert (0 <= q)%Q.
      { destruct (Qlt_le_dec q 0) as [Hlt|Hle]; [|exact Hle].
        apply Qltb_lt in Hlt. congruence. }
      unfold roundHalfUp. rewrite Qfloor_lt_iff.
      change (inject_Z 10) with 10%Q. change (inject_Z 3) with 3%Q.
      split; intros; lra.
Qed.

(** ... and above 0.8 exactly when it is 0.85 or more. *)
Lemma rounded_sample_high (q : Q) :
  level_gt (toFixed1 (SFin q)) (8 # 10) = Qle_bool (17 # 20) q.
Proof.
  apply Bool.eq_true_iff_eq. rewrite Qle_bool_iff. unfold toFixed1.
  destruct (Qle_bool _ (Qabs q)) eqn:Hbig.
  - destruct (huge_sample q Hbig); cbn [level_gt]; rewrite Qltb_lt;
      split; intros; lra.
  - destruct (Qltb q 0) eqn:Hneg; cbn [level_gt]; rewrite Qltb_lt, tenths_lt.
    + apply Qltb_lt in Hneg.
      assert (Hk : 0 <= roundHalfUp (inject_Z 10 * - q))
        by (apply roundHalfUp_nonneg; change (inject_Z 10) with 10%Q; lra).
      split; intros; [lia | lra].
    + unfold roundHalfUp.
      assert (Hiff : 8 < Qfloor (inject_Z 10 * q + (1 # 2))
                     <-> ~ Qfloor (inject_Z 10 * q + (1 # 2)) < 9) by lia.
      rewrite Hiff, Qfloor_lt_iff.
      change (inject_Z 10) with 10%Q. change (inject_Z 9) with 9%Q.
      split; intros.
      * apply Qnot_lt_le. intros Hlt. apply H. lra.
      * intros Hlt. lra.
Qed.

Lemma startMonitoringBuffer_constants (s : State) :
  lowBufferThreshold (exec startMonitoringBuffer s) = lowBufferThreshold s /\
  highBufferThreshold (exec startMonitoringBuffer s) = highBufferThreshold s /\
  getBufferFullness (exec startMonitoringBuffer s) = getBufferFullness s.
Proof. unfold_methods. cbn. split_cases; repeat split; congruence. Qed.

(** No call writes the thresholds or replaces the host's callback. *)
Lemma perform_constants (c : Call) (s : State) :
  lowBufferThreshold (perform c s) = lowBufferThreshold s /\
  highBufferThreshold (perform c s) = highBufferThreshold s /\
  getBufferFullness (perform c s) = getBufferFullness s.
Proof.
  destruct c; try (repeat split; reflexivity).
  - apply startMonitoringBuffer_constants.
  - cbn. unfold exec. rewrite segmentDownloaded_unfold.
    pose proof (startMonitoringBuffer_constants s) as H. unfold exec in H.
    destruct request as [request|];
      (destruct allowSwitch; [|repeat split; reflexivity]);
      destruct (startMonitoringBuffer s) as [[[]|e] s']; exact H.
  - cbn. unfold tick. destruct (intervals s); [repeat split; reflexivity|].
    unfold exec, monitorTick, bind, gets, modify, throw. cbn.
    destruct (getLatencyStatistics _); repeat split; reflexivity.
Qed.

Lemma run_constants (calls : list Call) (s : State) :
  lowBufferThreshold (run calls s) = lowBufferThreshold s /\
  highBufferThreshold (run calls s) = highBufferThreshold s /\
  getBufferFullness (run calls s) = getBufferFullness s.
Proof.
  revert s. induction calls as [|c calls IH]; intros s; [auto|].
  destruct (IH (perform c s)) as (Hl & Hh & Hg).
  destruct (perform_constants c s) as (Hl' & Hh' & Hg').
  unfold run in *. cbn. repeat split; congruence.
Qed.

(** X2.  In every state a manager reaches from its construction by the
    calls of [Call], the index an evaluation moves to is decided by the raw
    sample at 0.25 and 0.85, not at the thresholds 0.3 and 0.8: a finite
    sample below 0.25 steps down (if the index is above 0), one of 0.85 or
    more steps up (if the index is below the last rank), and any other
    holds; NaN holds too. *)
Theorem sample_marks_are_quarter_and_085 (cb : nat -> Sample)
    (store : gmap loc (list Variant)) (calls : list Call) :
  let s := run calls (snd (construct cb store)) in
  let sample := cb (fullnessCalls s) in
  currentQualityIndex (exec startMonitoringBuffer s)
  = match sample with
    | SFin q =>
        nextIndexOfSample q (currentQualityIndex s) (catalogSize s)
    | SNaN => currentQualityIndex s
    | SInf true => if 0 <? currentQualityIndex s
                   then currentQualityIndex s - 1 else currentQualityIndex s
    | SInf false => if currentQualityIndex s <? catalogSize s - 1
                    then currentQualityIndex s + 1 else currentQualityIndex s
    end.
Proof.
  intros s sample.
  destruct (run_constants calls (snd (construct cb store))) as (Hl & Hh & Hg).
  destruct (construct_state cb store)
    as (_ & _ & _ & _ & _ & _ & _ & _ & _ & _ & Hcb & Hlow & Hhigh & _).
  fold s in Hl, Hh, Hg. rewrite Hcb in Hg. rewrite Hlow in Hl.
  rewrite Hhigh in Hh.
  rewrite startMonitoringBuffer_index, nextIndex_sampled. cbv zeta.
  unfold observedLevel. rewrite Hl, Hh, Hg. fold sample.
  destruct sample as [|[|]|q].
  - reflexivity.
  - reflexivity.
  - reflexivity.
  - rewrite rounded_sample_low, rounded_sample_high. reflexivity.
Qed.

(** ** Evaluations that hold the rank *)

(** X3.  An evaluation that does not step (the level is in the dead zone,
    or it is low at index 0 or below, or high at the last rank or beyond)
    leaves the index and the whole configuration as they were: no cap is
    written. *)
Theorem evaluation_without_step_writes_nothing (s : State) :
  let level := observedLevel s in
  (level_lt level (lowBufferThreshold s) = false /\
   level_gt level (highBufferThreshold s) = false)
  \/ (level_lt level (lowBufferThreshold s) = true /\
      currentQualityIndex s <= 0)
  \/ (level_lt level (lowBufferThreshold s) = false /\
      level_gt level (highBufferThreshold s) = true /\
      catalogSize s - 1 <= currentQualityIndex s) ->
  currentQualityIndex (exec startMonitoringBuffer s) = currentQualityIndex s /\
  config_ (exec startMonitoringBuffer s) = config_ s.
Proof.
  unfold observedLevel. intros Hhold.
  unfold_methods. unfold catalogSize, catalog in *. cbn.
  split_cases; decide_tests;
    try (split; congruence);
    exfalso; destruct Hhold as [[? ?]|[[? ?]|(? & ? & ?)]];
    try congruence; try lia.
Qed.

Lemma evaluation_without_step_writes_nothing_witness :
  let s := run [CStartMonitoringBuffer; CStartMonitoringBuffer]
               (demoSession (steady (9 # 10))) in
  currentQualityIndex s = 2 /\
  currentQualityIndex (exec startMonitoringBuffer s) = currentQualityIndex s /\
  config_ (exec startMonitoringBuffer s) = config_ s.
Proof.
  intros s. split; [vm_compute; reflexivity|].
  apply (evaluation_without_step_writes_nothing s).
  right. right. repeat split; vm_compute; congruence.
Defined.

(** ** What the host is told *)

(** X4.  In a configured manager with a callback and an index inside the
    catalog, every evaluation returns and invokes the switch callback
    exactly once, whether or not the index moved, with the variant at the
    index it ends on and the two switch flags of the configuration. *)
Theorem every_evaluation_reports_its_choice (s : State) (c : Config)
    (r : Restrictions) (f : nat) :
  config_ s = Some c -> restrictions c = Some r ->
  switchQualityCallback s = Some f ->
  0 <= currentQualityIndex s < catalogSize s ->
  let s' := exec startMonitoringBuffer s in
  outcome startMonitoringBuffer s = Returns tt /\
  exists v : Variant,
    Array_get (catalog s') (currentQualityIndex s') = Some v /\
    switchCalls s'
    = switchCalls s
      ++ [mkSwitchCall f v (safeMarginSwitch c) (clearBufferSwitch c)].
Proof.
  intros Hc Hr Hf Hin s'. subst s'.
  split.
  { apply startMonitoringBuffer_returns. repeat split; eauto; lia. }
  rewrite startMonitoringBuffer_catalog, startMonitoringBuffer_index.
  pose proof (nextIndex_clamped (sampled s)) as Hnext.
  change (catalogSize (sampled s)) with (catalogSize s) in Hnext.
  change (currentQualityIndex (sampled s)) with (currentQualityIndex s) in Hnext.
  destruct (Array_get_Some (Array_sort byBandwidth (catalog s))
              (nextIndex (sampled s))) as [v Hv].
  { rewrite Array_sort_length. fold (catalogSize s). lia. }
  exists v. split; [exact Hv|].
  assert (Hrank : forall i, 0 <= i < catalogSize s ->
            Array_get (Array_sort byBandwidth (catalog s)) i <> None).
  { intros i Hi Hnone.
    destruct (Array_get_Some (Array_sort byBandwidth (catalog s)) i) as [w Hw];
      [rewrite Array_sort_length; exact Hi | congruence]. }
  clear Hnext. revert Hv. rewrite nextIndex_sampled. cbv zeta.
  unfold observedLevel. unfold_methods. unfold catalogSize, catalog in *. cbn.
  split_cases; intros Hv; decide_tests;
    rewrite ?lookup_insert_eq in *; cbn in *;
    rewrite ?Array_sort_idem in *;
    try congruence;
    try (exfalso;
         match goal with
         | H : Array_get _ ?i = None |- _ => apply (Hrank i); [lia | exact H]
         end).
Qed.

Lemma every_evaluation_reports_its_choice_witness :
  let s := demoSession (steady (5 # 10)) in
  let s' := exec startMonitoringBuffer s in
  outcome startMonitoringBuffer s = Returns tt /\
  exists v : Variant,
    Array_get (catalog s') (currentQualityIndex s') = Some v /\
    switchCalls s' = switchCalls s ++ [mkSwitchCall 7 v false false].
Proof.
  apply (every_evaluation_reports_its_choice
           (demoSession (steady (5 # 10))) demoConfig (mkRestrictions None) 7%nat);
    try (vm_compute; reflexivity).
  vm_compute. split; [discriminate | reflexivity].
Defined.

(** ** Stepping up, in both managers *)

(** X5.  First manager: when the observed level is above
    [highBufferThreshold] and the index is a rank below the last, the
    index goes up by exactly one and [restrictions.maxBandwidth] holds
    the bandwidth of the variant at the new index; the rest of the
    configuration, [restrictToScreenSize] included, is as before. *)
Theorem high_buffer_steps_one_rank_up (s : State) (c : Config)
    (r : Restrictions) :
  level_lt (observedLevel s) (lowBufferThreshold s) = false ->
  level_gt (observedLevel s) (highBufferThreshold s) = true ->
  0 <= currentQualityIndex s < catalogSize s - 1 ->
  config_ s = Some c -> restrictions c = Some r ->
  let s' := exec startMonitoringBuffer s in
  currentQualityIndex s' = currentQualityIndex s + 1 /\
  exists v : Variant,
    Array_get (catalog s') (currentQualityIndex s') = Some v /\
    config_ s' = Some (capped c (bandwidth v)).
Proof.
  intros Hlow Hhigh Hin Hc Hr s'. subst s'.
  rewrite startMonitoringBuffer_catalog,
    (startMonitoringBuffer_up s Hlow Hhigh (proj2 Hin)).
  split; [reflexivity|].
  destruct (Array_get_Some (Array_sort byBandwidth (catalog s))
              (currentQualityIndex s + 1)) as [v Hv].
  { rewrite Array_sort_length. fold (catalogSize s). lia. }
  exists v. split; [exact Hv|].
  now apply (startMonitoringBuffer_up_config s c r v).
Qed.

Lemma high_buffer_steps_one_rank_up_witness :
  let s := demoSession (steady (9 # 10)) in
  let s' := exec startMonitoringBuffer s in
  currentQualityIndex s' = currentQualityIndex s + 1 /\
  exists v : Variant,
    Array_get (catalog s') (currentQualityIndex s') = Some v /\
    config_ s' = Some (capped demoConfig (bandwidth v)).
Proof.
  apply (high_buffer_steps_one_rank_up (demoSession (steady (9 # 10)))
           demoConfig (mkRestrictions None));
    try (vm_compute; reflexivity).
  vm_compute. split; [discriminate | reflexivity].
Defined.

(** X6.  Second manager: the same step, and [restrictToScreenSize] is
    true afterwards, whatever it was. *)
Theorem second_manager_step_up_restricts_to_screen (s : State) (c : Config)
    (r : Restrictions) :
  level_lt (observedLevel s) (lowBufferThreshold s) = false ->
  level_gt (observedLevel s) (highBufferThreshold s) = true ->
  0 <= currentQualityIndex s < catalogSize s - 1 ->
  config_ s = Some c -> restrictions c = Some r ->
  let s' := exec Second.startMonitoringBuffer s in
  currentQualityIndex s' = currentQualityIndex s + 1 /\
  exists v : Variant,
    Array_get (Array_sort byBandwidth (catalog s)) (currentQualityIndex s')
    = Some v /\
    config_ s'
    = Some (mkConfig (safeMarginSwitch c) (clearBufferSwitch c)
              (Some (mkRestrictions (Some (bandwidth v)))) true).
Proof.
  intros Hlow Hhigh Hin Hc Hr s'. subst s'.
  destruct (Array_get_Some (Array_sort byBandwidth (catalog s))
              (currentQualityIndex s + 1)) as [v Hv].
  { rewrite Array_sort_length. fold (catalogSize s). lia. }
  destruct (second_startMonitoringBuffer_up s c r v Hlow Hhigh (proj2 Hin) Hv Hc Hr)
    as [Hidx Hcfg].
  rewrite Hidx. split; [reflexivity|]. exists v. split; [exact Hv | exact Hcfg].
Qed.

Lemma second_manager_step_up_restricts_to_screen_witness :
  let s := demoSession (steady (9 # 10)) in
  let s' := exec Second.startMonitoringBuffer s in
  currentQualityIndex s' = currentQualityIndex s + 1 /\
  exists v : Variant,
    Array_get (Array_sort byBandwidth (catalog s)) (currentQualityIndex s')
    = Some v /\
    config_ s'
    = Some (mkConfig false false (Some (mkRestrictions (Some (bandwidth v)))) true).
Proof.
  apply (second_manager_step_up_restricts_to_screen
           (demoSession (steady (9 # 10))) demoConfig (mkRestrictions None));
    try (vm_compute; reflexivity).
  vm_compute. split; [discriminate | reflexivity].
Defined.

(** X7.  The two managers evaluate alike: on every state they return or
    throw alike, and the states they leave differ at most in the
    [restrictToScreenSize] flag of the configuration. *)
Theorem managers_differ_in_screen_flag_only (s : State) :
  outcome Second.startMonitoringBuffer s = outcome startMonitoringBuffer s /\
  withoutScreenFlag (exec Second.startMonitoringBuffer s)
  = withoutScreenFlag (exec startMonitoringBuffer s).
Proof.
  unfold withoutScreenFlag. unfold_methods. unfold catalogSize, catalog. cbn.
  split_cases; split; try reflexivity; try congruence.
Qed.

(** ** What no call undoes *)

Lemma monitorTick_keeps (t : Z) (s : State) :
  downloadedSegments (exec (monitorTick t) s) = downloadedSegments s /\
  currentQualityIndex (exec (monitorTick t) s) = currentQualityIndex s /\
  config_ (exec (monitorTick t) s) = config_ s /\
  arrays (exec (monitorTick t) s) = arrays s /\
  videoVariants (exec (monitorTick t) s) = videoVariants s /\
  fullnessCalls (exec (monitorTick t) s) = fullnessCalls s.
Proof.
  unfold exec, monitorTick, bind, gets, modify, throw. cbn.
  destruct (getLatencyStatistics _); repeat split; reflexivity.
Qed.

Lemma perform_telemetry (c : Call) (s : State) :
  exists more : list SegmentRecord,
    downloadedSegments (perform c s) = downloadedSegments s ++ more /\
    more `sublist_of` recordsOf [c].
Proof.
  assert (Hsame : forall s' : State,
             downloadedSegments s' = downloadedSegments s ->
             exists more, downloadedSegments s' = downloadedSegments s ++ more /\
                          more `sublist_of` recordsOf [c]).
  { intros s' H. exists []. rewrite app_nil_r. split; [exact H|].
    apply sublist_nil_l. }
  destruct c; try (apply Hsame; reflexivity).
  - apply Hsame, startMonitoringBuffer_downloadedSegments.
  - cbn [perform]. unfold exec. rewrite segmentDownloaded_unfold.
    pose proof (startMonitoringBuffer_downloadedSegments s) as Hsegs.
    unfold exec in Hsegs.
    destruct request as [request|].
    + assert (Hrec : forall s' : State,
               downloadedSegments s' = downloadedSegments s ->
               exists more,
                 downloadedSegments
                   (recordSegment (segmentRecord deltaTimeMs request now1 now2) s')
                 = downloadedSegments s ++ more /\
                 more `sublist_of`
                   recordsOf [CSegmentDownloaded deltaTimeMs numBytes allowSwitch
                                (Some request) now1 now2]).
      { intros s' H. exists [segmentRecord deltaTimeMs request now1 now2].
        unfold recordSegment. cbn. rewrite H. split; reflexivity. }
      destruct allowSwitch; [|apply Hrec; reflexivity].
      destruct (startMonitoringBuffer s) as [[[]|e] s']; cbn [snd] in *.
      * apply Hrec, Hsegs.
      * apply Hsame, Hsegs.
    + destruct allowSwitch; [|apply Hsame; reflexivity].
      destruct (startMonitoringBuffer s) as [[[]|e] s']; cbn [snd] in *;
        apply Hsame, Hsegs.
  - cbn [perform]. unfold tick. destruct (intervals s); [apply Hsame; reflexivity|].
    apply Hsame, monitorTick_keeps.
Qed.

Lemma recordsOf_cons (c : Call) (calls : list Call) :
  recordsOf (c :: calls) = recordsOf [c] ++ recordsOf calls.
Proof. unfold recordsOf. cbn. now rewrite app_nil_r. Qed.

(** X8.  Telemetry is append-only: over any sequence of the calls of
    [Call] ([stop] and timer ticks included) the records held before are
    still there, in place, and what has been added are records of the
    [segmentDownloaded] calls made, in the order of the calls. *)
Theorem telemetry_only_grows (calls : list Call) (s : State) :
  exists more : list SegmentRecord,
    downloadedSegments (run calls s) = downloadedSegments s ++ more /\
    more `sublist_of` recordsOf calls.
Proof.
  revert s. induction calls as [|c calls IH]; intros s.
  - exists []. rewrite app_nil_r. split; [reflexivity | apply sublist_nil_l].
  - destruct (perform_telemetry c s) as (m1 & H1 & Hs1).
    destruct (IH (perform c s)) as (m2 & H2 & Hs2).
    exists (m1 ++ m2). split.
    + change (run (c :: calls) s) with (run calls (perform c s)).
      rewrite H2, H1. now rewrite app_assoc.
    + rewrite recordsOf_cons. now apply sublist_app.
Qed.

Lemma perform_intervals (c : Call) (s : State) :
  intervals (perform c s) = intervals s.
Proof.
  destruct c; try reflexivity.
  - apply startMonitoringBuffer_intervals.
  - cbn [perform]. unfold exec. rewrite segmentDownloaded_unfold.
    pose proof (startMonitoringBuffer_intervals s) as H. unfold exec in H.
    destruct request as [request|];
      (destruct allowSwitch; [|reflexivity]);
      destruct (startMonitoringBuffer s) as [[[]|e] s']; exact H.
  - cbn [perform]. unfold tick. destruct (intervals s) eqn:Hi; [exact Hi|].
    rewrite <- Hi. apply monitorTick_frame.
Qed.

(** X9.  The monitor timer outlives everything: after construction and
    any sequence of the calls of [Call] there is exactly the one 1000 ms
    timer the constructor registered; none of them registers another and
    nothing clears it. *)
Theorem one_monitor_timer_forever (cb : nat -> Sample)
    (store : gmap loc (list Variant)) (calls : list Call) :
  intervals (run calls (snd (construct cb store))) = [1000].
Proof.
  destruct (construct_state cb store) as (_ & _ & _ & _ & _ & Htimer & _).
  rewrite <- Htimer. generalize (snd (construct cb store)).
  induction calls as [|c calls IH]; intros s; [reflexivity|].
  change (run (c :: calls) s) with (run calls (perform c s)).
  now rewrite IH, perform_intervals.
Qed.

(** ** [stop] and the host's arrays *)

(** X10.  [stop] empties the manager's view of the catalog by pointing
    it at a new array: every array of the store, the one registered by
    [setVariants] included, keeps its contents, and the new array is none
    of them.  The index and the configuration are not reset. *)
Theorem stop_leaves_registered_array (s : State) (l : loc) :
  is_Some (arrays s !! l) ->
  arrays (exec stop s) !! l = arrays s !! l /\
  videoVariants (exec stop s) <> l /\
  currentQualityIndex (exec stop s) = currentQualityIndex s /\
  config_ (exec stop s) = config_ s.
Proof.
  intros Hl. apply elem_of_dom in Hl.
  assert (Hfresh : fresh (dom (arrays s)) <> l)
    by (intros <-; exact (is_fresh (dom (arrays s)) Hl)).
  unfold exec, stop, newArray, bind, modify. cbn.
  split; [now rewrite lookup_insert_ne | auto].
Qed.

Lemma stop_leaves_registered_array_witness :
  let s := demoSession (steady (9 # 10)) in
  arrays (exec stop s) !! videoVariants s = Some [v1000; v100; v500] /\
  videoVariants (exec stop s) <> videoVariants s.
Proof.
  intros s.
  assert (Hl : is_Some (arrays s !! videoVariants s))
    by (exists [v1000; v100; v500]; vm_compute; reflexivity).
  destruct (stop_leaves_registered_array s (videoVariants s) Hl)
    as (Hkeep & Hnew & _).
  split; [|exact Hnew]. rewrite Hkeep. vm_compute. reflexivity.
Defined.

(** ** An index beyond the catalog *)

(** X11.  [setVariants] leaves [currentQualityIndex] alone, so a shorter
    catalog can leave the index beyond the last rank.  An evaluation then
    selects nothing: if the level is not low it returns without calling
    the switch callback and changes neither index nor configuration; if
    the level is low and the rank below is still beyond the catalog, the
    index goes down by one and the evaluation throws a [TypeError], again
    without a call and without a cap. *)
Theorem index_beyond_catalog_selects_nothing (s : State) (l : loc) :
  currentQualityIndex (exec (setVariants l) s) = currentQualityIndex s /\
  (catalogSize s <= currentQualityIndex s ->
   let low := level_lt (observedLevel s) (lowBufferThreshold s) in
   let s' := exec startMonitoringBuffer s in
   (low = false ->
    outcome startMonitoringBuffer s = Returns tt /\
    currentQualityIndex s' = currentQualityIndex s /\
    switchCalls s' = switchCalls s /\ config_ s' = config_ s) /\
   (low = true -> catalogSize s < currentQualityIndex s ->
    outcome startMonitoringBuffer s = Throws TypeError /\
    currentQualityIndex s' = currentQualityIndex s - 1 /\
    switchCalls s' = switchCalls s /\ config_ s' = config_ s)).
Proof.
  split; [reflexivity|]. intros Hbeyond.
  assert (Hrank : forall i v, catalogSize s <= i ->
            Array_get (Array_sort byBandwidth (catalog s)) i = Some v -> False).
  { intros i v Hi Hv. unfold Array_get in Hv.
    destruct (i <? 0); [discriminate|].
    apply lookup_lt_Some in Hv. rewrite Array_sort_length in Hv.
    unfold catalogSize in Hi. lia. }
  pose proof (Z.le_ge_cases 0 (catalogSize s)) as _.
  assert (Hsize : 0 <= catalogSize s) by (unfold catalogSize; lia).
  cbv zeta. unfold observedLevel.
  unfold_methods. unfold catalogSize, catalog in *. cbn.
  split_cases; decide_tests;
    rewrite ?lookup_insert_eq in *; cbn in *;
    rewrite ?Array_sort_idem in *;
    try (exfalso;
         match goal with
         | H : Array_get _ ?i = Some _ |- _ => apply (Hrank i _ ltac:(lia) H)
         end);
    try lia;
    repeat split; intros; try congruence; try lia;
    try (exfalso;
         match goal with
         | H : Array_get _ ?i = Some _ |- _ => apply (Hrank i _ ltac:(lia) H)
         end).
Qed.

Lemma index_beyond_catalog_selects_nothing_witness :
  catalogSize shrunkSession <= currentQualityIndex shrunkSession /\
  catalogSize shrunkSession < currentQualityIndex shrunkSession /\
  outcome startMonitoringBuffer shrunkSession = Throws TypeError /\
  currentQualityIndex (exec startMonitoringBuffer shrunkSession)
  = currentQualityIndex shrunkSession - 1.
Proof.
  assert (H1 : catalogSize shrunkSession <= currentQualityIndex shrunkSession)
    by (vm_compute; discriminate).
  assert (H2 : catalogSize shrunkSession < currentQualityIndex shrunkSession)
    by (vm_compute; reflexivity).
  assert (Hlow : level_lt (observedLevel shrunkSession)
                          (lowBufferThreshold shrunkSession) = true)
    by (vm_compute; reflexivity).
  destruct (index_beyond_catalog_selects_nothing shrunkSession 1%positive)
    as [_ H].
  destruct (H H1) as (_ & Hthrow).
  destruct (Hthrow Hlow H2) as (Hout & Hidx & _).
  split; [exact H1|]. split; [exact H2|]. split; [exact Hout | exact Hidx].
Defined.

(** ** Latency statistics and the monitor *)

Lemma fold_left_max_spec (l : list Z) (a : Z) :
  let m := fold_left Z.max l a in
  (m = a \/ In m l) /\ a <= m /\ Forall (fun x => x <= m) l.
Proof.
  revert a. induction l as [|x l IH]; intros a; cbn.
  - split; [now left|]. split; [lia | constructor].
  - destruct (IH (Z.max a x)) as (Hin & Hle & Hall).
    split; [|split; [lia|]].
    + destruct Hin as [Heq|Hin]; [|now right; right].
      destruct (Z.max_spec a x) as [[_ Hm]|[_ Hm]]; rewrite Hm in Heq;
        [right; left | left]; congruence.
    + constructor; [lia | exact Hall].
Qed.

Lemma fold_left_min_spec (l : list Z) (a : Z) :
  let m := fold_left Z.min l a in
  (m = a \/ In m l) /\ m <= a /\ Forall (fun x => m <= x) l.
Proof.
  revert a. induction l as [|x l IH]; intros a; cbn.
  - split; [now left|]. split; [lia | constructor].
  - destruct (IH (Z.min a x)) as (Hin & Hle & Hall).
    split; [|split; [lia|]].
    + destruct Hin as [Heq|Hin]; [|now right; right].
      destruct (Z.min_spec a x) as [[_ Hm]|[_ Hm]]; rewrite Hm in Heq;
        [left | right; left]; congruence.
    + constructor; [lia | exact Hall].
Qed.

Lemma reduce_numbers_sum64 (zs : list Z) (acc : float) :
  fold_left (fun a b => (a + Number_ofZ b)%float) zs acc
  = sum64 acc (map Number_ofZ zs).
Proof.
  revert acc. induction zs as [|z zs IH]; intros acc; [reflexivity|].
  cbn [fold_left map sum64]. apply IH.
Qed.

(** X12.  [getLatencyStatistics] is [null] exactly on an empty log.
    Otherwise its minimum and maximum are latencies of records of the log
    that bound the latency of every record, and its average is the
    binary64 quotient of the sum of all latencies, taken from the first
    record to the last, by their number. *)
Theorem latency_statistics_bound_the_log (s : State) :
  (getLatencyStatistics s = None <-> downloadedSegments s = []) /\
  forall st : LatencyStatistics,
    getLatencyStatistics s = Some st ->
    let latencies := map latency (downloadedSegments s) in
    In (minLatency st) latencies /\ In (maxLatency st) latencies /\
    Forall (fun x => minLatency st <= x <= maxLatency st) latencies /\
    minLatency st <= maxLatency st /\
    averageLatency st = mean64 (map Number_ofZ latencies).
Proof.
  unfold getLatencyStatistics.
  destruct (downloadedSegments s) as [|first rest].
  { split; [split; reflexivity | discriminate]. }
  split; [split; discriminate|].
  intros st [= <-]. cbn [minLatency maxLatency averageLatency].
  set (latencies := map latency (first :: rest)).
  destruct (fold_left_max_spec (map latency rest) (latency first))
    as (Hmaxin & Hmaxle & Hmax).
  destruct (fold_left_min_spec (map latency rest) (latency first))
    as (Hminin & Hminle & Hmin).
  cbv zeta in *.
  set (hi := fold_left Z.max (map latency rest) (latency first)) in *.
  set (lo := fold_left Z.min (map latency rest) (latency first)) in *.
  assert (Hall : Forall (fun x => lo <= x <= hi) latencies).
  { subst latencies. cbn [map]. constructor; [lia|].
    rewrite Forall_forall in *. intros x Hx.
    specialize (Hmax x Hx). specialize (Hmin x Hx). cbn in *. lia. }
  split.
  { subst latencies. cbn [map]. destruct Hminin as [H|H];
      [left; symmetry; exact H | right; exact H]. }
  split.
  { subst latencies. cbn [map]. destruct Hmaxin as [H|H];
      [left; symmetry; exact H | right; exact H]. }
  split; [exact Hall|]. split; [lia|].
  unfold mean64.
  rewrite (length_map Number_ofZ latencies), <- reduce_numbers_sum64.
  reflexivity.
Qed.

Lemma latency_statistics_bound_the_log_witness :
  let s := logOfDelays [20; 10; 31] in
  exists st : LatencyStatistics,
    getLatencyStatistics s = Some st /\
    minLatency st = 10 /\ maxLatency st = 31 /\
    Forall (fun x => minLatency st <= x <= maxLatency st)
           (map latency (downloadedSegments s)) /\
    averageLatency st = mean64 (map Number_ofZ [20; 10; 31]).
Proof.
  intros s.
  exists (mkStats (61 / 3)%float 31 10).
  assert (Hst : getLatencyStatistics s = Some (mkStats (61 / 3)%float 31 10))
    by (vm_compute; reflexivity).
  destruct (proj2 (latency_statistics_bound_the_log s) _ Hst)
    as (_ & _ & Hall & _ & Havg).
  split; [exact Hst|]. split; [reflexivity|]. split; [reflexivity|].
  split; [exact Hall | exact Havg].
Defined.

(** The example of the specification: latencies 10, 20 and 30.  The
    average of 20, 10 and 31 is not a double: the quotient is rounded. *)
Example latency_statistics_of_three :
  getLatencyStatistics
    (run [CSegmentDownloaded 10 0 false (Some (mkRequest "video" None 0)) 0 0;
          CSegmentDownloaded 15 0 false (Some (mkRequest "video" (Some 5) 0)) 0 0;
          CSegmentDownloaded 30 0 false (Some (mkRequest "audio" (Some 0) 0)) 0 0]
         (demoSession (steady (5 # 10))))
  = Some (mkStats 20%float 30 10) /\
  getLatencyStatistics (logOfDelays [20; 10; 31])
  = Some (mkStats (61 / 3)%float 31 10) /\
  ~ hasValue (61 / 3)%float (61 # 3).
Proof.
  split; [vm_compute; reflexivity|]. split; [vm_compute; reflexivity|].
  vm_compute. discriminate.
Qed.

(** X13.  A tick of the monitor counts the records of the last 5000 ms
    into [lastDownloadedSegmentsCount] and then reports the average over
    the whole log, whatever the window holds; on an empty log it throws
    once the count is written, reporting nothing.  It leaves the index,
    the configuration, the arrays and the log as they are and reaches
    neither the switch callback nor the buffer callback. *)
Theorem monitor_tick_reports_all_time_average (t : Z) (s : State) :
  let s' := exec (monitorTick t) s in
  let recent :=
    List.filter (fun r => t - timestamp r <=? 5000) (downloadedSegments s) in
  lastDownloadedSegmentsCount s' = Some (length recent) /\
  (length recent <= length (downloadedSegments s))%nat /\
  (downloadedSegments s = [] ->
   outcome (monitorTick t) s = Throws TypeError /\
   displayed s' = displayed s) /\
  (forall st, getLatencyStatistics s = Some st ->
   outcome (monitorTick t) s = Returns tt /\
   displayed s' = displayed s ++ [averageLatency st]) /\
  (downloadedSegments s' = downloadedSegments s /\
   currentQualityIndex s' = currentQualityIndex s /\
   config_ s' = config_ s /\ arrays s' = arrays s /\
   switchCalls s' = switchCalls s /\ fullnessCalls s' = fullnessCalls s).
Proof.
  intros s' recent. subst s'.
  assert (Hfilter : filter (fun segment => t - timestamp segment <= 5000)
                           (downloadedSegments s) = recent).
  { subst recent. induction (downloadedSegments s) as [|r l IH]; [reflexivity|].
    cbn [List.filter]. rewrite filter_cons, IH.
    destruct (decide (t - timestamp r <= 5000)) as [H|H];
      destruct (Z.leb_spec (t - timestamp r) 5000); try lia; reflexivity. }
  destruct (monitorTick_keeps t s) as (H1 & H2 & H3 & H4 & _ & H6).
  destruct (monitorTick_frame t s) as (_ & H5 & _).
  split; [|split; [apply List.filter_length_le|]].
  { unfold exec, monitorTick, bind, gets, modify, throw. cbn.
    rewrite Hfilter. destruct (getLatencyStatistics _); reflexivity. }
  split; [|split; [|auto 10]].
  - intros Hempty. unfold outcome, exec, monitorTick, bind, gets, modify, throw.
    cbn. unfold getLatencyStatistics. cbn. rewrite Hempty. auto.
  - intros st Hst. unfold outcome, exec, monitorTick, bind, gets, modify, throw.
    cbn.
    assert (Hst' : getLatencyStatistics
                     (set_lastDownloadedSegmentsCount
                        (Some (length (filter
                                 (fun segment => t - timestamp segment <= 5000)
                                 (downloadedSegments s)))) s) = Some st)
      by exact Hst.
    rewrite Hst'. auto.
Qed.

Lemma monitor_tick_reports_all_time_average_witness :
  getLatencyStatistics stoppedSession = Some (mkStats 15%float 15 15) /\
  outcome (monitorTick 100000) stoppedSession = Returns tt /\
  displayed (exec (monitorTick 100000) stoppedSession)
  = displayed stoppedSession ++ [15%float].
Proof.
  assert (Hst : getLatencyStatistics stoppedSession
                = Some (mkStats 15%float 15 15))
    by (vm_compute; reflexivity).
  destruct (monitor_tick_reports_all_time_average 100000 stoppedSession)
    as (_ & _ & _ & Hreport & _).
  split; [exact Hst|]. exact (Hreport _ Hst).
Defined.

(** ** The order of the manifest *)

Lemma sorted_bandwidths (arr : list Variant) :
  StronglySorted Z.le (map bandwidth (Array_sort byBandwidth arr)).
Proof.
  pose proof (Array_sort_strongly_sorted arr) as Hs.
  induction Hs as [|v rest _ IH Hall]; cbn [map]; constructor; [exact IH|].
  rewrite Forall_forall in Hall. rewrite Forall_forall. intros b Hb.
  apply list_elem_of_In, in_map_iff in Hb. destruct Hb as (w & <- & Hw).
  apply Hall, list_elem_of_In, Hw.
Qed.

(** X14.  The bandwidth found at each rank does not depend on the order
    in which the host lists the variants: two arrays holding the same
    variants sort to the same sequence of bandwidths. *)
Theorem rank_bandwidths_ignore_listing_order (arr1 arr2 : list Variant) :
  Permutation arr1 arr2 ->
  map bandwidth (Array_sort byBandwidth arr1)
  = map bandwidth (Array_sort byBandwidth arr2) /\
  forall i : Z,
    option_map bandwidth (Array_get (Array_sort byBandwidth arr1) i)
    = option_map bandwidth (Array_get (Array_sort byBandwidth arr2) i).
Proof.
  intros Hperm.
  assert (Heq : map bandwidth (Array_sort byBandwidth arr1)
                = map bandwidth (Array_sort byBandwidth arr2)).
  { apply (StronglySorted_unique_strong Z.le).
    - intros; lia.
    - apply sorted_bandwidths.
    - apply sorted_bandwidths.
    - apply Permutation_map.
      rewrite (Array_sort_perm byBandwidth arr1), Hperm.
      symmetry. apply Array_sort_perm. }
  split; [exact Heq|]. intros i. unfold Array_get.
  destruct (i <? 0); [reflexivity|].
  pose proof (f_equal (fun l => l !! Z.to_nat i) Heq) as Hi. cbn beta in Hi.
  change (map bandwidth) with (fmap (M:=list) bandwidth) in Hi.
  rewrite !list_lookup_fmap in Hi.
  destruct (Array_sort byBandwidth arr1 !! Z.to_nat i),
           (Array_sort byBandwidth arr2 !! Z.to_nat i); cbn in *; congruence.
Qed.

Lemma rank_bandwidths_ignore_listing_order_witness :
  map bandwidth (Array_sort byBandwidth [v1000; v100; v500])
  = map bandwidth (Array_sort byBandwidth [v500; v1000; v100]).
Proof.
  apply (rank_bandwidths_ignore_listing_order [v1000; v100; v500]
           [v500; v1000; v100]).
  apply perm_trans with [v1000; v500; v100];
    [apply perm_skip, perm_swap | apply perm_swap].
Defined.

(** ** The failure log *)

(** X16.  The failure log is the responses with a status of 400 or more,
    in the order they arrived, each with its URI, arrival time and status;
    a status of 399 or less leaves no trace. *)
Theorem failure_log_keeps_statuses_from_400
    (responses : list (Response * Z)) (failedSegments : list FailedSegment) :
  filterResponses responses failedSegments
  = failedSegments
    ++ map (fun r => mkFailedSegment (uri (fst r)) (snd r) (status (fst r)))
           (List.filter (fun r => 400 <=? status (fst r)) responses).
Proof.
  unfold filterResponses. revert failedSegments.
  induction responses as [|r responses IH]; intros failed; cbn [fold_left].
  - cbn. now rewrite app_nil_r.
  - rewrite IH. unfold responseFilter. cbn [List.filter].
    destruct (400 <=? status (fst r)); [|reflexivity].
    cbn [map]. now rewrite <- app_assoc.
Qed.

Example failure_log_boundary :
  filterResponses [(mkResponse "a" 399, 1); (mkResponse "b" 400, 2);
                   (mkResponse "c" 200, 3); (mkResponse "d" 503, 4)] []
  = [mkFailedSegment "b" 2 400; mkFailedSegment "d" 4 503].
Proof. reflexivity. Qed.

(** ** The streaming chart *)

(** X18.  After any sequence of updates the labels and the data of the
    chart have grown by one entry per update, in order and in step, and
    the chart was redrawn once per update if it had been initialised
    and never otherwise: an update before [init] throws after both
    pushes. *)
Theorem chart_labels_and_data_grow_in_step
    (updates : list (Q * string)) (c : StreamingChart.Chart) :
  let c' := StreamingChart.stream updates c in
  StreamingChart.chart c' = StreamingChart.chart c /\
  StreamingChart.labels c' = StreamingChart.labels c ++ map snd updates /\
  StreamingChart.datasetData c'
  = StreamingChart.datasetData c ++ map fst updates /\
  StreamingChart.redraws c'
  = (StreamingChart.redraws c
     + match StreamingChart.chart c with
       | Some _ => length updates
       | None => 0
       end)%nat /\
  (forall newData label,
      StreamingChart.chart c = None ->
      fst (StreamingChart.updateData newData label c) = Throws TypeError).
Proof.
  cbv zeta. unfold StreamingChart.stream. split; [|split; [|split; [|split]]].
  5: { intros newData label Hnone. unfold StreamingChart.updateData.
       now rewrite Hnone. }
  all: revert c; induction updates as [|u updates IH]; intros c;
    cbn [fold_left map length];
    rewrite ?app_nil_r; try (destruct (StreamingChart.chart c); lia);
    try reflexivity;
    rewrite IH; unfold StreamingChart.updateData;
    destruct (StreamingChart.chart c); cbn;
    rewrite <- ?app_assoc; try reflexivity; lia.
Qed.

Lemma chart_labels_and_data_grow_in_step_witness :
  StreamingChart.chart StreamingChart.construct = None /\
  fst (StreamingChart.updateData (42 # 1) "12:00:00" StreamingChart.construct)
  = Throws TypeError.
Proof.
  assert (Hnone : StreamingChart.chart StreamingChart.construct = None)
    by reflexivity.
  destruct (chart_labels_and_data_grow_in_step [] StreamingChart.construct)
    as (_ & _ & _ & _ & Hthrow).
  split; [exact Hnone|]. exact (Hthrow (42 # 1)%Q "12:00:00"%string Hnone).
Defined.
